(** * Scheduled payments and the Stripe webhook: a shallow embedding

    The development follows the server module that handles Stripe webhook
    deliveries ([WebhookHandlers.processWebhook]), the processor adapter it
    calls ([stripeClient.ts]), the plan form of the client
    ([CreditPlans.createMutation]) and the checkout form
    ([CheckoutForm.handleSubmit]).

    Conventions:
    - The numbers that the webhook handler meets are identifiers and
      amounts in minor units; they are integers ([Z]), with [NaN] for a
      failed conversion.
    - The numbers of the plan form are IEEE 754 doubles ([spec_float] at
      precision 53), since the form divides them: [Double.div] rounds as
      the division of JavaScript does.
    - An instant ([Date]) is a number of milliseconds since the epoch.
    - A Stripe metadata object is a finite map from strings to strings.
    - The process state ([World]) holds the environment variables, the
      clock, the module-level Stripe client, the database and a journal of
      the storage calls issued so far. *)

From stdpp Require Import gmap strings list pretty.
From Stdlib Require Import ZArith Lia Sorted SpecFloat.

Local Open Scope Z_scope.

(** ** JavaScript values *)

Module Js.

Inductive JsNumber : Type :=
| NaN
| Num (z : Z).

(** [if (s)] on a [string | undefined]: the branch is taken for a defined,
    non-empty string, which the branch then uses. *)
Definition truthyString (v : option string) : option string :=
  match v with
  | Some s => if String.eqb s "" then None else Some s
  | None => None
  end.

(** [if (n)] on a [number | undefined]: the branch is taken for a defined
    number other than [NaN] and [0]. *)
Definition truthyNumber (v : option JsNumber) : option Z :=
  match v with
  | Some (Num z) => if z =? 0 then None else Some z
  | Some NaN => None
  | None => None
  end.

(** [Buffer.isBuffer] distinguishes a raw body from anything else that a
    body parser may have left in its place. *)
Inductive Payload : Type :=
| Buffer (bytes : list Byte.byte)
| ParsedBody (json : string).

Definition isBuffer (p : Payload) : bool :=
  match p with
  | Buffer _ => true
  | ParsedBody _ => false
  end.

End Js.

Import Js.

(** ** The payment processor's data *)

Module Stripe.

Record PaymentIntent : Type := mkPaymentIntent {
  pi_id : string;
  pi_amount : Z;
  pi_metadata : option (gmap string string)
}.

(** [ev_created] is the time carried by the event, in seconds. *)
Record Event : Type := mkEvent {
  ev_id : string;
  ev_type : string;
  ev_created : Z;
  ev_data_object : PaymentIntent
}.

Record Client : Type := mkClient {
  secretKey : string;
  apiVersion : string
}.

Record ProcessEnv : Type := mkProcessEnv {
  STRIPE_SECRET_KEY : option string;
  STRIPE_PUBLISHABLE_KEY : option string;
  STRIPE_WEBHOOK_SECRET : option string
}.

End Stripe.

Import Stripe.

(** ** Rows of the relational store

    The schema module is not among the source files.  The records below
    have the columns of section 3 of the specification, under the names by
    which the handler and the pages of the client use them. *)

Inductive PaymentStatus : Type :=
| scheduled
| completed
| late
| failed.

Global Instance PaymentStatus_eq_dec : EqDecision PaymentStatus.
Proof. solve_decision. Defined.

(** A calendar date, as the plan form enters it. *)
Record CalendarDate : Type := mkDate {
  year : Z;
  month : Z;
  day : Z
}.

Record ScheduledPayment : Type := mkScheduledPayment {
  sp_id : Z;
  sp_planId : Z;
  sp_userId : string;
  sp_amount : Z;
  sp_dueDate : CalendarDate;
  sp_status : PaymentStatus;
  sp_paidAt : option Z
}.

(** The object literal handed to [storage.updateScheduledPayment]: a field
    that is absent leaves the column alone. *)
Record ScheduledPaymentPatch : Type := mkPatch {
  patch_status : option PaymentStatus;
  patch_paidAt : option Z
}.

(** The object literal handed to [storage.createTransaction]. *)
Record InsertTransaction : Type := mkInsertTransaction {
  ins_planId : Z;
  ins_type : string;
  ins_amount : Z;
  ins_externalId : string;
  ins_status : string;
  ins_description : string
}.

Record Transaction : Type := mkTransaction {
  tx_id : Z;
  tx_userId : string;
  tx_planId : Z;
  tx_type : string;
  tx_amount : Z;
  tx_externalId : string;
  tx_status : string;
  tx_description : string
}.

Inductive Error : Type :=
| PayloadMustBeBuffer
| MissingSecretKey
| MissingPublishableKey
| MissingWebhookSecret
| SignatureVerificationFailed
| StorageFailure (message : string).

(** ** The persistence gateway

    [processWebhook] reaches the database through the [storage] object only.
    The interface lists the two methods it calls; a method may reject. *)

Class IStorage (DB : Type) : Type := {
  updateScheduledPayment :
    Z -> string -> ScheduledPaymentPatch -> DB -> Error + DB;
  createTransaction :
    string -> InsertTransaction -> DB -> Error + DB
}.

Inductive StorageCall : Type :=
| UpdateScheduledPayment (id : Z) (userId : string) (patch : ScheduledPaymentPatch)
| CreateTransaction (userId : string) (transaction : InsertTransaction).

(** ** The process state and the monad of handlers *)

Record World (DB : Type) : Type := mkWorld {
  env : ProcessEnv;
  clock : Z;
  stripe : option Client;
  db : DB;
  journal : list StorageCall
}.

Arguments mkWorld {DB}.
Arguments env {DB}.
Arguments clock {DB}.
Arguments stripe {DB}.
Arguments db {DB}.
Arguments journal {DB}.

Definition set_clock {DB} (t : Z) (w : World DB) : World DB :=
  mkWorld (env w) t (stripe w) (db w) (journal w).

Definition set_stripe {DB} (c : Client) (w : World DB) : World DB :=
  mkWorld (env w) (clock w) (Some c) (db w) (journal w).

Definition set_db {DB} (d : DB) (w : World DB) : World DB :=
  mkWorld (env w) (clock w) (stripe w) d (journal w).

Definition record_call {DB} (c : StorageCall) (w : World DB) : World DB :=
  mkWorld (env w) (clock w) (stripe w) (db w) (journal w ++ [c]).

(** A computation either throws or returns, and leaves a process state. *)
Definition M (DB A : Type) : Type := World DB -> (Error + A) * World DB.

Definition throw {DB A} (e : Error) : M DB A := fun w => (inl e, w).

Global Instance M_ret {DB} : MRet (M DB) := fun A a w => (inr a, w).

Global Instance M_bind {DB} : MBind (M DB) := fun A B k m w =>
  match m w with
  | (inl e, w') => (inl e, w')
  | (inr a, w') => k a w'
  end.

(** [new Date()] *)
Definition newDate {DB} : M DB Z := fun w => (inr (clock w), w).

(** [await storage.updateScheduledPayment(id, userId, patch)] *)
Definition storage_updateScheduledPayment {DB} `{IStorage DB}
    (id : Z) (userId : string) (patch : ScheduledPaymentPatch) : M DB unit :=
  fun w =>
    let w1 := record_call (UpdateScheduledPayment id userId patch) w in
    match updateScheduledPayment id userId patch (db w) with
    | inl e => (inl e, w1)
    | inr d => (inr tt, set_db d w1)
    end.

(** [await storage.createTransaction(userId, transaction)] *)
Definition storage_createTransaction {DB} `{IStorage DB}
    (userId : string) (transaction : InsertTransaction) : M DB unit :=
  fun w =>
    let w1 := record_call (CreateTransaction userId transaction) w in
    match createTransaction userId transaction (db w) with
    | inl e => (inl e, w1)
    | inr d => (inr tt, set_db d w1)
    end.

(** ** stripeClient.ts and WebhookHandlers

    Two functions come from outside the repository and are parameters:
    [Number], the conversion of a string to a number, and
    [webhooks_constructEvent], the signature check of the Stripe library
    ([client.webhooks.constructEvent]), which reads the client, the clock
    (its tolerance window), the raw body, the signature header and the
    signing secret, and throws ([None]) when the check fails. *)

Section Handlers.

Context {DB : Type} `{storage : IStorage DB}.

Variable Number : string -> JsNumber.

Variable webhooks_constructEvent :
  Client -> Z -> list Byte.byte -> string -> string -> option Event.

Definition getStripeClient : M DB Client := fun w =>
  match stripe w with
  | Some client => (inr client, w)
  | None =>
    match truthyString (STRIPE_SECRET_KEY (env w)) with
    | None => (inl MissingSecretKey, w)
    | Some secretKey =>
      let client := mkClient secretKey "2025-07-30.basil" in
      (inr client, set_stripe client w)
    end
  end.

Definition getStripePublishableKey : M DB string := fun w =>
  match truthyString (STRIPE_PUBLISHABLE_KEY (env w)) with
  | None => (inl MissingPublishableKey, w)
  | Some pk => (inr pk, w)
  end.

Definition getStripeWebhookSecret : M DB string := fun w =>
  match truthyString (STRIPE_WEBHOOK_SECRET (env w)) with
  | None => (inl MissingWebhookSecret, w)
  | Some secret => (inr secret, w)
  end.

(** [client.webhooks.constructEvent(payload, signature, s)] *)
Definition client_webhooks_constructEvent (client : Client)
    (payload : list Byte.byte) (signature s : string) : M DB Event := fun w =>
  match webhooks_constructEvent client (clock w) payload signature s with
  | None => (inl SignatureVerificationFailed, w)
  | Some event => (inr event, w)
  end.

Definition constructStripeEvent (payload : list Byte.byte) (signature : string)
  : M DB Event :=
  s ← getStripeWebhookSecret;
  client ← getStripeClient;
  client_webhooks_constructEvent client payload signature s.

(** [meta.k ? Number(meta.k) : undefined] *)
Definition numberField (meta : gmap string string) (k : string)
  : option JsNumber :=
  match truthyString (meta !! k) with
  | Some s => Some (Number s)
  | None => None
  end.

Definition processWebhook (payload : Payload) (signature : string)
  : M DB unit :=
  match payload with
  | ParsedBody _ => throw PayloadMustBeBuffer
  | Buffer bytes =>
    event ← constructStripeEvent bytes signature;
    if String.eqb (ev_type event) "payment_intent.succeeded" then
      let pi := ev_data_object event in
      let meta := default ∅ (pi_metadata pi) in
      let userId := meta !! "userId" in
      let planId := numberField meta "planId" in
      let paymentId := numberField meta "paymentId" in
      match truthyString userId with
      | Some userId =>
        match truthyNumber paymentId with
        | Some paymentId =>
          paidAt ← newDate;
          storage_updateScheduledPayment paymentId userId
            (mkPatch (Some completed) (Some paidAt))
        | None => mret tt
        end;;
        match truthyNumber planId with
        | Some planId =>
          storage_createTransaction userId
            (mkInsertTransaction planId "payment" (pi_amount pi) (pi_id pi)
               "completed"
               match truthyNumber paymentId with
               | Some paymentId =>
                 "Payment for scheduled payment #" +:+ pretty paymentId
               | None => "Credit plan payment"
               end)
        | None => mret tt
        end
      | None => mret tt
      end
    else if String.eqb (ev_type event) "payment_intent.payment_failed" then
      let pi := ev_data_object event in
      let meta := default ∅ (pi_metadata pi) in
      let userId := meta !! "userId" in
      let paymentId := numberField meta "paymentId" in
      match truthyString userId, truthyNumber paymentId with
      | Some userId, Some paymentId =>
        storage_updateScheduledPayment paymentId userId
          (mkPatch (Some failed) None)
      | _, _ => mret tt
      end
    else mret tt
  end.

End Handlers.

Arguments getStripeClient {DB}.
Arguments getStripeWebhookSecret {DB}.

(** ** The database behind [storage] *)

(** Modelled from the spec: the schema of the two tables is not among the
    source files.  The rows are those of section 3, with the columns that
    the handler and the pages of the client read and write. *)
Record Store : Type := mkStore {
  scheduledPayments : list ScheduledPayment;
  transactions : list Transaction
}.

(** The row that a patch leaves: a column named by the patch takes the
    patch's value, every other column keeps its own. *)
Definition applyPatch (p : ScheduledPaymentPatch) (r : ScheduledPayment)
  : ScheduledPayment :=
  mkScheduledPayment (sp_id r) (sp_planId r) (sp_userId r) (sp_amount r)
    (sp_dueDate r)
    (default (sp_status r) (patch_status p))
    (match patch_paidAt p with
     | Some t => Some t
     | None => sp_paidAt r
     end).

(** The scope of an update: the row with this id, owned by this user. *)
Definition selects (id : Z) (ownerId : string) (r : ScheduledPayment) : bool :=
  (sp_id r =? id) && String.eqb (sp_userId r) ownerId.

Definition nextTransactionId (s : Store) : Z :=
  Z.of_nat (length (transactions s)) + 1.

Definition newTransaction (id : Z) (ownerId : string) (t : InsertTransaction)
  : Transaction :=
  mkTransaction id ownerId (ins_planId t) (ins_type t) (ins_amount t)
    (ins_externalId t) (ins_status t) (ins_description t).

Module DatabaseStorage.

(** Modelled from the spec: [storage.updateScheduledPayment] is not among
    the source files.  Section 6 gives
    [updateScheduledPayment(id, ownerId, patch)], scoped by owner id: the
    patch is applied to the row with that id and that owner, and a row
    that is missing or owned by somebody else is a not-found signal, not
    an error. *)
Definition updateScheduledPayment (id : Z) (ownerId : string)
    (p : ScheduledPaymentPatch) (s : Store) : Store :=
  mkStore
    (map (fun r => if selects id ownerId r then applyPatch p r else r)
         (scheduledPayments s))
    (transactions s).

(** Modelled from the spec: [storage.createTransaction] is not among the
    source files.  Sections 3 and 6 give
    [createTransaction(ownerId, transaction)] on an append-only ledger:
    one row is added for the owner, and no row is ever changed. *)
Definition createTransaction (ownerId : string) (t : InsertTransaction)
    (s : Store) : Store :=
  mkStore (scheduledPayments s)
    (transactions s ++ [newTransaction (nextTransactionId s) ownerId t]).

End DatabaseStorage.

(** The [storage] object of the server: neither method rejects. *)
Global Instance databaseStorage : IStorage Store := {
  updateScheduledPayment id ownerId p s :=
    inr (DatabaseStorage.updateScheduledPayment id ownerId p s);
  createTransaction ownerId t s :=
    inr (DatabaseStorage.createTransaction ownerId t s)
}.

(** ** Deliveries *)

Record Delivery : Type := mkDelivery {
  d_time : Z;
  d_payload : Payload;
  d_signature : string
}.

Section Deliveries.

Context {DB : Type} `{storage : IStorage DB}.

Variable Number : string -> JsNumber.

Variable webhooks_constructEvent :
  Client -> Z -> list Byte.byte -> string -> string -> option Event.

(** Modelled from the spec: the webhook route is not among the source
    files.  Section 5 describes it as request-per-event: each delivery
    calls [processWebhook] once, at its own time, on the state that the
    delivery before it left. *)
Definition deliver (d : Delivery) (w : World DB) : (Error + unit) * World DB :=
  processWebhook Number webhooks_constructEvent
    (d_payload d) (d_signature d) (set_clock (d_time d) w).

Definition metadataOf (ev : Event) : gmap string string :=
  default ∅ (pi_metadata (ev_data_object ev)).

(** The client that [getStripeClient] returns in [w], if it returns. *)
Definition clientOf (w : World DB) : option Client :=
  match stripe w with
  | Some client => Some client
  | None =>
    (fun key => mkClient key "2025-07-30.basil")
      <$> truthyString (STRIPE_SECRET_KEY (env w))
  end.

(** The status that the event [ev] asks for on the row [r]: a
    payment-succeeded event asks for [completed] and a payment-failed
    event for [failed], on the row that its metadata names by id and by
    owner; [None] when the event does not concern the row. *)
Definition requestedStatus (ev : Event) (r : ScheduledPayment)
  : option PaymentStatus :=
  match truthyString (metadataOf ev !! "userId"),
        truthyNumber (numberField Number (metadataOf ev) "paymentId") with
  | Some userId, Some paymentId =>
    if selects paymentId userId r then
      if String.eqb (ev_type ev) "payment_intent.succeeded"
      then Some completed
      else if String.eqb (ev_type ev) "payment_intent.payment_failed"
      then Some failed
      else None
    else None
  | _, _ => None
  end.

(** The row that the event [ev], processed at the time [now], leaves in
    the place of [r]; lemma [processWebhook_rows] relates it to
    [processWebhook]. *)
Definition rowAfter (now : Z) (ev : Event) (r : ScheduledPayment)
  : ScheduledPayment :=
  match requestedStatus ev r with
  | Some completed => applyPatch (mkPatch (Some completed) (Some now)) r
  | Some st => applyPatch (mkPatch (Some st) None) r
  | None => r
  end.

(** The storage calls that a verified event leads to when it is processed
    at the time [now], in the order of the calls; lemma
    [processWebhook_storageCalls] relates the list to [processWebhook]. *)
Definition storageCalls (now : Z) (ev : Event) : list StorageCall :=
  let pi := ev_data_object ev in
  let userId := truthyString (metadataOf ev !! "userId") in
  let planId := truthyNumber (numberField Number (metadataOf ev) "planId") in
  let paymentId :=
    truthyNumber (numberField Number (metadataOf ev) "paymentId") in
  if String.eqb (ev_type ev) "payment_intent.succeeded" then
    match userId with
    | Some userId =>
      match paymentId with
      | Some paymentId =>
        [UpdateScheduledPayment paymentId userId
           (mkPatch (Some completed) (Some now))]
      | None => []
      end ++
      match planId with
      | Some planId =>
        [CreateTransaction userId
           (mkInsertTransaction planId "payment" (pi_amount pi) (pi_id pi)
              "completed"
              match paymentId with
              | Some paymentId =>
                "Payment for scheduled payment #" +:+ pretty paymentId
              | None => "Credit plan payment"
              end)]
      | None => []
      end
    | None => []
    end
  else if String.eqb (ev_type ev) "payment_intent.payment_failed" then
    match userId, paymentId with
    | Some userId, Some paymentId =>
      [UpdateScheduledPayment paymentId userId (mkPatch (Some failed) None)]
    | _, _ => []
    end
  else [].

(** The delivery is authentic in [w]: its body is raw and the adapter
    returns the event [ev] for it. *)
Definition Authentic (w : World DB) (d : Delivery) (ev : Event) : Prop :=
  exists bytes,
    d_payload d = Buffer bytes /\
    fst (constructStripeEvent webhooks_constructEvent bytes (d_signature d)
           (set_clock (d_time d) w)) = inr ev.

End Deliveries.

(** The effect of a storage call, and of a list of them, on the database. *)
Definition perform (s : Store) (c : StorageCall) : Store :=
  match c with
  | UpdateScheduledPayment id userId p =>
    DatabaseStorage.updateScheduledPayment id userId p s
  | CreateTransaction userId t => DatabaseStorage.createTransaction userId t s
  end.

Definition performAll (calls : list StorageCall) (w : World Store) : World Store :=
  mkWorld (env w) (clock w) (stripe w) (fold_left perform calls (db w))
    (journal w ++ calls).

(** ** Doubles of the two outside functions, for concrete runs *)

Module Fixture.

Local Instance byte_eq_decision : EqDecision Byte.byte := Byte.byte_eq_dec.

Fixpoint digits (s : string) (acc : Z) : option Z :=
  match s with
  | EmptyString => Some acc
  | String c rest =>
    let n := Z.of_nat (Ascii.nat_of_ascii c) - 48 in
    if (0 <=? n) && (n <=? 9) then digits rest (10 * acc + n) else None
  end.

(** [Number] on a string of decimal digits; [NaN] stands for every other
    string. *)
Definition decimalNumber (s : string) : JsNumber :=
  match s with
  | EmptyString => Num 0
  | _ => match digits s 0 with Some z => Num z | None => NaN end
  end.

(** A signature check that accepts the header ["v1=" ++ secret] and decodes
    the body by looking it up in a table of known events. *)
Definition tableConstructEvent (table : list (list Byte.byte * Event))
    (client : Client) (now : Z) (payload : list Byte.byte)
    (signature secret : string) : option Event :=
  if String.eqb signature ("v1=" +:+ secret)
  then snd <$> find (fun e => bool_decide (fst e = payload)) table
  else None.

End Fixture.

(** ** JavaScript numbers as doubles *)

Module Double.

Definition prec : Z := 53.
Definition emax : Z := 1024.

(** The double that is nearest to the integer [z]; it is [z] itself when
    [z] is below 2^53 in absolute value. *)
Definition ofZ (z : Z) : spec_float := binary_normalize prec emax z 0 false.

(** [x / y] *)
Definition div (x y : spec_float) : spec_float := SFdiv prec emax x y.

(** [x <= y], which is false when either is [NaN]. *)
Definition leb (x y : spec_float) : bool := SFleb x y.

(** [Math.ceil(x)]: a double with an exponent that is not negative is an
    integer already. *)
Definition Math_ceil (x : spec_float) : spec_float :=
  match x with
  | S754_finite s m e =>
    if 0 <=? e then x
    else
      binary_normalize prec emax
        (if s then - (Z.pos m / 2 ^ (- e)) else - ((- Z.pos m) / 2 ^ (- e)))
        0 s
  | _ => x
  end.

(** The integer that the double [x] is, when it is one. *)
Definition toZ (x : spec_float) : option Z :=
  match x with
  | S754_zero _ => Some 0
  | S754_finite s m e =>
    if 0 <=? e then Some ((if s then -1 else 1) * (Z.pos m * 2 ^ e))
    else if Z.pos m mod 2 ^ (- e) =? 0
         then Some ((if s then -1 else 1) * (Z.pos m / 2 ^ (- e)))
         else None
  | _ => None
  end.

End Double.

(** The least integer that is not below [a / b], for a positive [b]. *)
Definition ceiling (a b : Z) : Z := - ((- a) / b).

(** ** The plan form of the client (CreditPlans) *)

Module CreditPlans.

(** The values of the form after [createPlanSchema] has parsed them:
    [z.coerce.number()] leaves a JavaScript number, which need not be an
    integer. *)
Record CreatePlanForm : Type := mkCreatePlanForm {
  planName : string;
  totalAmount : spec_float;
  termMonths : spec_float;
  startDate : string;
  autopayEnabled : bool
}.

(** [createPlanSchema]: the form is submitted only when it passes.  The
    bounds are comparisons of numbers, which [NaN] fails. *)
Definition createPlanSchema (data : CreatePlanForm) : bool :=
  (1 <=? Z.of_nat (String.length (planName data)))
  && Double.leb (Double.ofZ 100) (totalAmount data)
  && Double.leb (Double.ofZ 1) (termMonths data)
  && Double.leb (termMonths data) (Double.ofZ 60)
  && (1 <=? Z.of_nat (String.length (startDate data))).

Record CreatePlanRequest : Type := mkCreatePlanRequest {
  req_planName : string;
  req_totalAmount : spec_float;
  req_monthlyPayment : spec_float;
  req_termMonths : spec_float;
  req_startDate : CalendarDate;
  req_autopayEnabled : bool;
  req_status : string
}.

Section Mutation.

(** [new Date(s)] on the text of the date field; [None] is an invalid
    date, on which [toISOString] throws. *)
Variable parseDate : string -> option CalendarDate.

(** The body that [createMutation] posts to [/api/credit-plans]. *)
Definition createMutation (data : CreatePlanForm) : option CreatePlanRequest :=
  let monthlyPayment :=
    Double.Math_ceil (Double.div (totalAmount data) (termMonths data)) in
  match parseDate (startDate data) with
  | None => None
  | Some start =>
    Some (mkCreatePlanRequest (planName data) (totalAmount data)
            monthlyPayment (termMonths data) start (autopayEnabled data)
            "active")
  end.

End Mutation.

End CreditPlans.

(** ** The plan and schedule engine *)

Module PlanEngine.


Definition isLeapYear (y : Z) : bool :=
  (y mod 4 =? 0) && (negb (y mod 100 =? 0) || (y mod 400 =? 0)).

Definition daysInMonth (y m : Z) : Z :=
  if m =? 2 then (if isLeapYear y then 29 else 28)
  else if (m =? 4) || (m =? 6) || (m =? 9) || (m =? 11) then 30
  else 31.


(** Months counted from year 0. *)
Definition monthIndex (d : CalendarDate) : Z := year d * 12 + (month d - 1).

(** Modelled from the spec: the schedule generator is not among the source
    files.  Section 4.1 asks for [start date + k months] in
    calendar-month arithmetic: the month advances by [k], the day of the
    month is kept, and a day that the target month does not have becomes
    that month's last day. *)
Definition addMonths (d : CalendarDate) (k : Z) : CalendarDate :=
  let i := monthIndex d + k in
  let y := i / 12 in
  let m := i mod 12 + 1 in
  mkDate y m (Z.min (day d) (daysInMonth y m)).


(** Modelled from the spec: section 4.1 and the example of section 8
    (50000 over 12 months: eleven times 4167, then 4163).  The total and
    the term are integers there, and every installment but the last is
    the ceiling of total over term; the last one is what remains of the
    total. *)
Definition installment (total term k : Z) : Z :=
  let monthly := ceiling total term in
  if k <? term - 1 then monthly else total - monthly * (term - 1).

Definition scheduleRow (userId : string) (planId firstId total term : Z)
    (start : CalendarDate) (k : Z) : ScheduledPayment :=
  mkScheduledPayment (firstId + k) planId userId (installment total term k)
    (addMonths start k) scheduled None.

(** Modelled from the spec: one row per installment, for [k] from 0 to
    [term - 1]. *)
Definition generateSchedule (userId : string) (planId firstId total term : Z)
    (start : CalendarDate) : list ScheduledPayment :=
  scheduleRow userId planId firstId total term start <$> seqZ 0 term.

Section Engine.

Variable parseDate : string -> option CalendarDate.


End Engine.

Definition totalOf (rows : list ScheduledPayment) : Z :=
  foldr Z.add 0 (sp_amount <$> rows).

End PlanEngine.

(** ** The checkout form of the client (payment-sheet.tsx) *)

Module PaymentSheet.

Inductive PaymentStatusView : Type :=
| idle
| processing
| succeeded
| failedView.

(** The value with which a promise rejects, as the [catch] block reads it:
    [null] or [undefined], on which reading [message] throws, or any other
    value, with what its [message] reads as (the empty string when it has
    none). *)
Inductive Thrown : Type :=
| ThrownNullish
| ThrownValue (message : string).

(** What [elements.submit] does: it rejects, or it resolves with an error
    or without one. *)
Inductive SubmitOutcome : Type :=
| SubmitRejected (err : Thrown)
| SubmitResolved (submitError : option string).

(** What [stripe.confirmPayment] resolves to, or that it rejected. *)
Inductive ConfirmOutcome : Type :=
| ConfirmThrew (err : Thrown)
| ConfirmError (message : string)
| ConfirmIntent (paymentIntentId status : string)
| ConfirmNothing.

Record ConfirmPaymentBody : Type := mkConfirmPaymentBody {
  body_paymentIntentId : string;
  body_planId : option Z;
  body_paymentId : option Z
}.

(** What the form does that can be seen from outside it. *)
Inductive Effect : Type :=
| PreventDefault
| Toast (title : string)
| SetPaymentStatus (s : PaymentStatusView)
| SetIsProcessing (b : bool)
| ApiRequest (method path : string) (body : ConfirmPaymentBody)
| InvalidateQueries (key : string)
| CloseLater.

(** How the promise of [handleSubmit] settles. *)
Inductive Completion : Type :=
| Returns
| Rejects.

(** [message || "Payment failed"] *)
Definition orPaymentFailed (message : string) : string :=
  if String.eqb message "" then "Payment failed" else message.

(** The body of the [try], with the value it throws, if it throws. *)
Definition tryBlock (planId paymentId : option Z) (confirm : ConfirmOutcome)
    (requestError : option Thrown) : list Effect * option Thrown :=
  match confirm with
  | ConfirmThrew err => ([], Some err)
  | ConfirmError message =>
    ([Toast (orPaymentFailed message); SetPaymentStatus failedView], None)
  | ConfirmNothing => ([], None)
  | ConfirmIntent paymentIntentId status =>
    if String.eqb status "succeeded" then
      let request :=
        ApiRequest "POST" "/api/stripe/confirm-payment"
          (mkConfirmPaymentBody paymentIntentId planId paymentId) in
      match requestError with
      | Some err => ([request], Some err)
      | None =>
        ([request; SetPaymentStatus succeeded; Toast "Payment successful!";
          InvalidateQueries "/api/credit-plans";
          InvalidateQueries "/api/scheduled-payments";
          InvalidateQueries "/api/transactions";
          InvalidateQueries "/api/dashboard/stats";
          CloseLater], None)
      end
    else if String.eqb status "requires_action" then
      ([Toast "Additional verification required"; SetPaymentStatus idle], None)
    else
      ([Toast ("Payment status: " +:+ status); SetPaymentStatus failedView],
       None)
  end.

(** The [catch] block: reading [err.message] throws when [err] is [null]
    or [undefined], before anything is shown. *)
Definition catchBlock (err : Thrown) : list Effect * Completion :=
  match err with
  | ThrownNullish => ([], Rejects)
  | ThrownValue message =>
    ([Toast (orPaymentFailed message); SetPaymentStatus failedView], Returns)
  end.

(** [handleSubmit], given whether the Stripe objects are loaded, what
    [elements.submit] does, the outcome of [stripe.confirmPayment] and the
    value, if any, with which the request to the server is rejected.  The
    call of [elements.submit] stands before the [try]: when it rejects,
    [handleSubmit] rejects there. *)
Definition handleSubmit (planId paymentId : option Z) (ready : bool)
    (submit : SubmitOutcome) (confirm : ConfirmOutcome)
    (requestError : option Thrown) : list Effect * Completion :=
  if negb ready then ([PreventDefault], Returns)
  else
    let started :=
      [PreventDefault; SetIsProcessing true; SetPaymentStatus processing] in
    match submit with
    | SubmitRejected _ => (started, Rejects)
    | SubmitResolved (Some message) =>
      (started ++
       [Toast (orPaymentFailed message); SetIsProcessing false;
        SetPaymentStatus failedView],
       Returns)
    | SubmitResolved None =>
      let (tried, thrown) := tryBlock planId paymentId confirm requestError in
      match thrown with
      | None => (started ++ tried ++ [SetIsProcessing false], Returns)
      | Some err =>
        let (caught, completion) := catchBlock err in
        match completion with
        | Rejects => (started ++ tried ++ caught, Rejects)
        | Returns =>
          (started ++ tried ++ caught ++ [SetIsProcessing false], Returns)
        end
      end
    end.

End PaymentSheet.

(** ** Concrete data for runs of the handlers *)

Module Sample.

Import Fixture.

Definition env0 : ProcessEnv :=
  mkProcessEnv (Some "sk_test_1") None (Some "whsec_1").

Definition meta (entries : list (string * string)) : option (gmap string string) :=
  Some (list_to_map entries).

Definition evSucceeded : Event :=
  mkEvent "evt_1" "payment_intent.succeeded" 1700000000
    (mkPaymentIntent "pi_1" 4167
       (meta [("userId", "u1"); ("planId", "7"); ("paymentId", "3")])).

Definition evFailed : Event :=
  mkEvent "evt_2" "payment_intent.payment_failed" 1700000500
    (mkPaymentIntent "pi_1" 4167
       (meta [("userId", "u1"); ("planId", "7"); ("paymentId", "3")])).

Definition evPlanOnly : Event :=
  mkEvent "evt_3" "payment_intent.succeeded" 1700000600
    (mkPaymentIntent "pi_2" 2500 (meta [("userId", "u1"); ("planId", "7")])).

Definition evStranger : Event :=
  mkEvent "evt_4" "payment_intent.succeeded" 1700000700
    (mkPaymentIntent "pi_3" 4167
       (meta [("userId", "u2"); ("paymentId", "3")])).

Definition evRefund : Event :=
  mkEvent "evt_5" "charge.refunded" 1700000800
    (mkPaymentIntent "ch_1" 4167 (meta [("userId", "u1"); ("paymentId", "3")])).

Definition bodySucceeded : list Byte.byte := [Byte.x01].
Definition bodyFailed : list Byte.byte := [Byte.x02].
Definition bodyPlanOnly : list Byte.byte := [Byte.x03].
Definition bodyStranger : list Byte.byte := [Byte.x04].
Definition bodyRefund : list Byte.byte := [Byte.x05].

Definition table : list (list Byte.byte * Event) :=
  [(bodySucceeded, evSucceeded); (bodyFailed, evFailed);
   (bodyPlanOnly, evPlanOnly); (bodyStranger, evStranger);
   (bodyRefund, evRefund)].

Definition verifier := tableConstructEvent table.

Definition goodSignature : string := "v1=whsec_1".

Definition row3 : ScheduledPayment :=
  mkScheduledPayment 3 7 "u1" 4167 (mkDate 2024 1 31) scheduled None.

Definition store0 : Store := mkStore [row3] [].

Definition world0 : World Store := mkWorld env0 0 None store0 [].

(** The time of processing, in milliseconds: one hour after the time that
    [evSucceeded] carries. *)
Definition laterTime : Z := 1700003600000.

Definition deliverySucceeded : Delivery :=
  mkDelivery laterTime (Buffer bodySucceeded) goodSignature.

(** A date field in the form [YYYY-MM-DD]. *)
Definition isoDate (s : string) : option CalendarDate :=
  match digits (String.substring 0 4 s) 0,
        digits (String.substring 5 2 s) 0,
        digits (String.substring 8 2 s) 0 with
  | Some y, Some m, Some d =>
    if (Nat.eqb (String.length s) 10)
       && String.eqb (String.substring 4 1 s) "-"
       && String.eqb (String.substring 7 1 s) "-"
       && (1 <=? m) && (m <=? 12)
       && (1 <=? d) && (d <=? PlanEngine.daysInMonth y m)
    then Some (mkDate y m d)
    else None
  | _, _, _ => None
  end.

End Sample.

(** ** Further definitions: the process state, storage calls, the pages *)

Definition set_env {DB} (e : ProcessEnv) (w : World DB) : World DB :=
  mkWorld e (clock w) (stripe w) (db w) (journal w).

(** The user in whose name a storage call is made. *)
Definition callUserId (c : StorageCall) : string :=
  match c with
  | UpdateScheduledPayment _ userId _ => userId
  | CreateTransaction userId _ => userId
  end.

Definition isCreateTransaction (c : StorageCall) : bool :=
  match c with
  | UpdateScheduledPayment _ _ _ => false
  | CreateTransaction _ _ => true
  end.

(** Storages of which one method rejects, for concrete runs. *)
Module Rejecting.

Definition updates : IStorage Store := {|
  updateScheduledPayment _ _ _ _ := inl (StorageFailure "update rejected");
  createTransaction ownerId t s :=
    inr (DatabaseStorage.createTransaction ownerId t s)
|}.

Definition creates : IStorage Store := {|
  updateScheduledPayment id ownerId p s :=
    inr (DatabaseStorage.updateScheduledPayment id ownerId p s);
  createTransaction _ _ _ := inl (StorageFailure "insert rejected")
|}.

End Rejecting.

(** The plan cards of the CreditPlans page. *)
Module CreditPlansView.

Section View.

(** [new Date(p.dueDate).getTime()], for due dates that parse. *)
Variable getTime : CalendarDate -> Z.

(** [payments?.filter((p) => p.planId === planId) || []] *)
Definition getPlanPayments (payments : option (list ScheduledPayment))
    (planId : Z) : list ScheduledPayment :=
  match payments with
  | Some ps => filter (fun p => sp_planId p = planId) ps
  | None => []
  end.

Definition dueTime (p : ScheduledPayment) : Z := getTime (sp_dueDate p).

(** [.sort((a, b) => a.due - b.due)]: the sort of an array is stable, so
    its result is the one of any stable sort by due time; here the element
    is put in front of the first one that is not due before it. *)
Fixpoint insertByDue (p : ScheduledPayment) (l : list ScheduledPayment)
  : list ScheduledPayment :=
  match l with
  | [] => [p]
  | q :: rest =>
    if dueTime p <=? dueTime q then p :: q :: rest
    else q :: insertByDue p rest
  end.

Definition sortByDue (l : list ScheduledPayment) : list ScheduledPayment :=
  foldr insertByDue [] l.

(** [planPayments.filter((p) => p.status === "completed").length] *)
Definition completedPayments (payments : option (list ScheduledPayment))
    (planId : Z) : nat :=
  length (filter (fun p => sp_status p = completed)
            (getPlanPayments payments planId)).

(** [planPayments.filter((p) => p.status === "scheduled").sort(...)[0]] *)
Definition nextPayment (payments : option (list ScheduledPayment))
    (planId : Z) : option ScheduledPayment :=
  head (sortByDue (filter (fun p => sp_status p = scheduled)
                     (getPlanPayments payments planId))).

End View.

End CreditPlansView.

(** The lists of the Tasks page. *)
Module Tasks.

Record Task : Type := mkTask {
  task_id : Z;
  task_title : string;
  task_status : string
}.

(** [tasks?.filter((t) => showCompleted || t.status !== "completed") || []] *)
Definition filteredTasks (tasks : option (list Task)) (showCompleted : bool)
  : list Task :=
  match tasks with
  | Some ts =>
    filter (fun t => showCompleted = true \/ task_status t <> "completed") ts
  | None => []
  end.

Definition pendingTasks (tasks : option (list Task)) (showCompleted : bool)
  : list Task :=
  filter (fun t => task_status t = "pending") (filteredTasks tasks showCompleted).

Definition completedTasks (tasks : option (list Task)) (showCompleted : bool)
  : list Task :=
  filter (fun t => task_status t = "completed")
    (filteredTasks tasks showCompleted).

(** The tasks that the page lists: none under
    [pendingTasks.length === 0 && !showCompleted]; otherwise the pending
    ones, and the completed ones under
    [showCompleted && completedTasks.length > 0]. *)
Definition listed (tasks : option (list Task)) (showCompleted : bool)
  : list Task :=
  if Nat.eqb (length (pendingTasks tasks showCompleted)) 0
     && negb showCompleted
  then []
  else
    pendingTasks tasks showCompleted
    ++ (if showCompleted
           && Nat.ltb 0 (length (completedTasks tasks showCompleted))
        then completedTasks tasks showCompleted
        else []).

(** The id and the status that [toggleComplete] sends to the server. *)
Definition toggleComplete (task : Task) : Z * string :=
  (task_id task,
   if String.eqb (task_status task) "completed" then "pending"
   else "completed").

End Tasks.

(** Storage calls made one after the other, as [await] makes them: the
    first call that rejects ends the run. *)
Section Issue.

Context {DB : Type} `{storage : IStorage DB}.

Definition issue (c : StorageCall) : M DB unit :=
  match c with
  | UpdateScheduledPayment id userId p =>
    storage_updateScheduledPayment id userId p
  | CreateTransaction userId t => storage_createTransaction userId t
  end.

Fixpoint issueAll (calls : list StorageCall) : M DB unit :=
  match calls with
  | [] => mret tt
  | c :: rest => issue c;; issueAll rest
  end.

End Issue.

(** What a run of [handleSubmit] does to the two pieces of state that the
    form renders. *)
Module CheckoutView.

Import PaymentSheet.

Definition processingFlags (effects : list Effect) : list bool :=
  omap (fun e => match e with SetIsProcessing b => Some b | _ => None end)
    effects.

Definition statusViews (effects : list Effect) : list PaymentStatusView :=
  omap (fun e => match e with SetPaymentStatus s => Some s | _ => None end)
    effects.

Definition isRequest (e : Effect) : bool :=
  match e with
  | ApiRequest _ _ _ => true
  | _ => false
  end.

End CheckoutView.

(** A storage call fits an event processed at the time [now]: an update
    writes completed, with the time of processing, for a payment-succeeded
    event, and failed for a payment-failed event, on the scheduled payment
    that the metadata names; a transaction is created for a payment-succeeded
    event only, for the plan that the metadata names and with the id and
    the amount of the payment intent. *)
Definition callFitsEvent (Number : string -> JsNumber) (now : Z) (ev : Event)
    (c : StorageCall) : Prop :=
  match c with
  | UpdateScheduledPayment id _ p =>
    truthyNumber (numberField Number (metadataOf ev) "paymentId") = Some id
    /\ ((ev_type ev = "payment_intent.succeeded"
         /\ p = mkPatch (Some completed) (Some now))
        \/ (ev_type ev = "payment_intent.payment_failed"
            /\ p = mkPatch (Some failed) None))
  | CreateTransaction _ t =>
    ev_type ev = "payment_intent.succeeded"
    /\ truthyNumber (numberField Number (metadataOf ev) "planId")
       = Some (ins_planId t)
    /\ ins_type t = "payment" /\ ins_status t = "completed"
    /\ ins_amount t = pi_amount (ev_data_object ev)
    /\ ins_externalId t = pi_id (ev_data_object ev)
  end.

(** More events for concrete runs. *)
Module MoreSamples.

Import Fixture Sample.

(** A payment whose metadata names the scheduled payment by a text that is
    not a number. *)
Definition evOddPayment : Event :=
  mkEvent "evt_6" "payment_intent.succeeded" 1700000900
    (mkPaymentIntent "pi_6" 4167
       (meta [("userId", "u1"); ("planId", "7"); ("paymentId", "abc")])).

Definition bodyOddPayment : list Byte.byte := [Byte.x06].

(** A payment whose metadata names a scheduled payment and no plan. *)
Definition evNoPlan : Event :=
  mkEvent "evt_7" "payment_intent.succeeded" 1700001000
    (mkPaymentIntent "pi_7" 4167 (meta [("userId", "u1"); ("paymentId", "3")])).

Definition bodyNoPlan : list Byte.byte := [Byte.x07].

Definition verifier : Client -> Z -> list Byte.byte -> string -> string ->
                      option Event :=
  tableConstructEvent
    ((bodyOddPayment, evOddPayment) :: (bodyNoPlan, evNoPlan) :: table).

(** A due time that follows the calendar. *)
Definition dayNumber (d : CalendarDate) : Z :=
  (year d * 12 + (month d - 1)) * 31 + day d.

Definition paidJanuary : ScheduledPayment :=
  mkScheduledPayment 1 7 "u1" 4167 (mkDate 2024 1 31) completed
    (Some 1706700000000).

Definition dueMarch : ScheduledPayment :=
  mkScheduledPayment 3 7 "u1" 4167 (mkDate 2024 3 31) scheduled None.

Definition dueFebruary : ScheduledPayment :=
  mkScheduledPayment 2 7 "u1" 4167 (mkDate 2024 2 29) scheduled None.

Definition ofOtherPlan : ScheduledPayment :=
  mkScheduledPayment 9 8 "u1" 100 (mkDate 2024 1 1) scheduled None.

Definition payments : list ScheduledPayment :=
  [paidJanuary; dueMarch; dueFebruary; ofOtherPlan].

Definition form : CreditPlans.CreatePlanForm :=
  CreditPlans.mkCreatePlanForm "Builder" (Double.ofZ 50000) (Double.ofZ 12)
    "2024-01-31" false.


End MoreSamples.

(** * Properties of the handlers, for every storage *)

Section HandlerFacts.

Context {DB : Type} `{storage : IStorage DB}.

Variable Number : string -> JsNumber.

Variable webhooks_constructEvent :
  Client -> Z -> list Byte.byte -> string -> string -> option Event.

Abbreviation constructStripeEvent' := (constructStripeEvent webhooks_constructEvent).
Abbreviation processWebhook' := (processWebhook Number webhooks_constructEvent).

(** The adapter's answer depends on the environment, the client and the
    clock only. *)
Lemma constructStripeEvent_answer bytes signature (w : World DB) :
  fst (constructStripeEvent' bytes signature w) =
    match truthyString (STRIPE_WEBHOOK_SECRET (env w)) with
    | None => inl MissingWebhookSecret
    | Some secret =>
      match clientOf w with
      | None => inl MissingSecretKey
      | Some client =>
        match webhooks_constructEvent client (clock w) bytes signature secret with
        | None => inl SignatureVerificationFailed
        | Some ev => inr ev
        end
      end
    end.
Proof.
  unfold constructStripeEvent, mbind, M_bind, getStripeWebhookSecret,
    getStripeClient, client_webhooks_constructEvent, clientOf.
  destruct (truthyString (STRIPE_WEBHOOK_SECRET (env w))) as [secret|]; [|done].
  destruct (stripe w) as [client|]; cbn.
  - by destruct (webhooks_constructEvent _ _ _ _ _).
  - destruct (truthyString (STRIPE_SECRET_KEY (env w))) as [key|]; cbn; [|done].
    by destruct (webhooks_constructEvent _ _ _ _ _).
Qed.

(** The adapter writes nothing but the module-level client, and the client
    it keeps is the one it would build again. *)
Lemma constructStripeEvent_frame bytes signature (w : World DB) :
  let w' := snd (constructStripeEvent' bytes signature w) in
  env w' = env w /\ clock w' = clock w /\ clientOf w' = clientOf w
  /\ db w' = db w /\ journal w' = journal w.
Proof.
  unfold constructStripeEvent, mbind, M_bind, getStripeWebhookSecret,
    getStripeClient, client_webhooks_constructEvent, clientOf.
  destruct (truthyString (STRIPE_WEBHOOK_SECRET (env w))) as [secret|]; [|done].
  destruct (stripe w) as [client|] eqn:Hc; cbn.
  - destruct (webhooks_constructEvent _ _ _ _ _); cbn; by rewrite Hc.
  - destruct (truthyString (STRIPE_SECRET_KEY (env w))) as [key|] eqn:Hk; cbn.
    + by destruct (webhooks_constructEvent _ _ _ _ _).
    + by rewrite Hc, Hk.
Qed.

Lemma constructStripeEvent_stable bytes signature (w w' : World DB) :
  env w' = env w -> clientOf w' = clientOf w -> clock w' = clock w ->
  fst (constructStripeEvent' bytes signature w')
  = fst (constructStripeEvent' bytes signature w).
Proof.
  intros He Hc Ht. rewrite !constructStripeEvent_answer.
  by rewrite He, Hc, Ht.
Qed.

(** When the adapter throws, so does the handler, in the state the adapter
    left. *)
Lemma processWebhook_throws bytes signature (w : World DB) e :
  fst (constructStripeEvent' bytes signature w) = inl e ->
  processWebhook' (Buffer bytes) signature w
  = (inl e, snd (constructStripeEvent' bytes signature w)).
Proof.
  intros H. unfold processWebhook, mbind, M_bind at 1.
  destruct (constructStripeEvent' bytes signature w) as [[e'|ev] w1];
    by simplify_eq/=.
Qed.

Lemma processWebhook_parsed_body json signature (w : World DB) :
  processWebhook' (ParsedBody json) signature w = (inl PayloadMustBeBuffer, w).
Proof. reflexivity. Qed.

(** C3.  Whatever the input, when the payload is not a raw buffer, or when
    the signature check against the webhook secret that the server holds
    fails, [processWebhook] throws and writes nothing: the database is the
    one it found and no storage call has been issued. *)
Theorem processWebhook_rejects_unauthenticated
    payload signature (w : World DB) :
  (isBuffer payload = false
   \/ exists bytes,
        payload = Buffer bytes /\
        forall client secret,
          truthyString (STRIPE_WEBHOOK_SECRET (env w)) = Some secret ->
          webhooks_constructEvent client (clock w) bytes signature secret
          = None) ->
  exists e,
    fst (processWebhook' payload signature w) = inl e
    /\ db (snd (processWebhook' payload signature w)) = db w
    /\ journal (snd (processWebhook' payload signature w)) = journal w.
Proof.
  intros [Hraw | (bytes & -> & Hsig)].
  - destruct payload as [bytes|json]; [discriminate|].
    exists PayloadMustBeBuffer. by rewrite processWebhook_parsed_body.
  - assert (exists e, fst (constructStripeEvent' bytes signature w) = inl e)
      as [e He].
    { rewrite constructStripeEvent_answer.
      destruct (truthyString (STRIPE_WEBHOOK_SECRET (env w))) as [secret|];
        [|by eexists].
      destruct (clientOf w) as [client|]; [|by eexists].
      rewrite (Hsig client secret eq_refl). by eexists. }
    exists e. rewrite (processWebhook_throws _ _ _ _ He). cbn.
    pose proof (constructStripeEvent_frame bytes signature w) as Hf.
    cbn in Hf. tauto.
Qed.

(** C8.  For a verified event whose type is neither payment-succeeded nor
    payment-failed, and for a verified event of any type whose metadata
    has no user identifier (absent, or the empty string), [processWebhook]
    returns without an error and writes nothing. *)
Theorem processWebhook_acknowledges_out_of_scope
    bytes signature (w : World DB) ev :
  fst (constructStripeEvent' bytes signature w) = inr ev ->
  ((ev_type ev <> "payment_intent.succeeded"
    /\ ev_type ev <> "payment_intent.payment_failed")
   \/ truthyString (metadataOf ev !! "userId") = None) ->
  fst (processWebhook' (Buffer bytes) signature w) = inr tt
  /\ db (snd (processWebhook' (Buffer bytes) signature w)) = db w
  /\ journal (snd (processWebhook' (Buffer bytes) signature w)) = journal w.
Proof.
  intros Hev Hout.
  assert (processWebhook' (Buffer bytes) signature w
          = (inr tt, snd (constructStripeEvent' bytes signature w))) as ->.
  { unfold processWebhook, mbind, M_bind at 1.
    destruct (constructStripeEvent' bytes signature w) as [[e|ev'] w1];
      simplify_eq/=.
    destruct Hout as [[Hs Hf] | Hu].
    - apply String.eqb_neq in Hs, Hf. by rewrite Hs, Hf.
    - unfold metadataOf in Hu. rewrite Hu.
      destruct (String.eqb (ev_type ev) "payment_intent.succeeded"); [done|].
      by destruct (String.eqb _ _). }
  pose proof (constructStripeEvent_frame bytes signature w) as Hf.
  cbn in *. tauto.
Qed.

End HandlerFacts.

(** A forged signature on a known body. *)
Lemma processWebhook_rejects_unauthenticated_witness :
  exists e,
    fst (processWebhook Fixture.decimalNumber Sample.verifier
           (Buffer Sample.bodySucceeded) "v1=forged" Sample.world0) = inl e
    /\ db (snd (processWebhook Fixture.decimalNumber Sample.verifier
                  (Buffer Sample.bodySucceeded) "v1=forged" Sample.world0))
       = Sample.store0
    /\ journal (snd (processWebhook Fixture.decimalNumber Sample.verifier
                       (Buffer Sample.bodySucceeded) "v1=forged"
                       Sample.world0))
       = [].
Proof.
  apply (processWebhook_rejects_unauthenticated Fixture.decimalNumber
           Sample.verifier (Buffer Sample.bodySucceeded) "v1=forged"
           Sample.world0).
  right. exists Sample.bodySucceeded. split; [reflexivity|].
  intros client secret H. vm_compute in H. injection H as <-. reflexivity.
Defined.

(** An event of a type that the handler does not know. *)
Lemma processWebhook_acknowledges_out_of_scope_witness :
  fst (processWebhook Fixture.decimalNumber Sample.verifier
         (Buffer Sample.bodyRefund) Sample.goodSignature Sample.world0)
  = inr tt
  /\ db (snd (processWebhook Fixture.decimalNumber Sample.verifier
                (Buffer Sample.bodyRefund) Sample.goodSignature
                Sample.world0))
     = Sample.store0
  /\ journal (snd (processWebhook Fixture.decimalNumber Sample.verifier
                     (Buffer Sample.bodyRefund) Sample.goodSignature
                     Sample.world0))
     = [].
Proof.
  apply (processWebhook_acknowledges_out_of_scope Fixture.decimalNumber
           Sample.verifier Sample.bodyRefund Sample.goodSignature
           Sample.world0 Sample.evRefund).
  - vm_compute. reflexivity.
  - left. split; discriminate.
Defined.

(** * Properties of the handlers on the database *)

Section StoreFacts.

Variable Number : string -> JsNumber.

Variable webhooks_constructEvent :
  Client -> Z -> list Byte.byte -> string -> string -> option Event.

Abbreviation constructStripeEvent' :=
  (constructStripeEvent (DB := Store) webhooks_constructEvent).
Abbreviation processWebhook' :=
  (processWebhook (DB := Store) Number webhooks_constructEvent).

Lemma performAll_nil (w : World Store) : performAll [] w = w.
Proof. destruct w. unfold performAll. cbn. by rewrite app_nil_r. Qed.

Lemma storage_update_performs id userId p (w : World Store) :
  storage_updateScheduledPayment id userId p w
  = (inr tt, performAll [UpdateScheduledPayment id userId p] w).
Proof. reflexivity. Qed.

Lemma storage_create_performs userId t (w : World Store) :
  storage_createTransaction userId t w
  = (inr tt, performAll [CreateTransaction userId t] w).
Proof. reflexivity. Qed.

Lemma performAll_app calls1 calls2 (w : World Store) :
  performAll calls2 (performAll calls1 w) = performAll (calls1 ++ calls2) w.
Proof.
  unfold performAll. cbn. by rewrite fold_left_app, app_assoc.
Qed.

(** A verified event is acknowledged, and what the handler does to the
    database is to issue the calls of [storageCalls], in order. *)
Lemma processWebhook_storageCalls bytes signature (w : World Store) ev :
  fst (constructStripeEvent' bytes signature w) = inr ev ->
  processWebhook' (Buffer bytes) signature w
  = (inr tt,
     performAll (storageCalls Number (clock w) ev)
       (snd (constructStripeEvent' bytes signature w))).
Proof.
  intros Hev.
  pose proof (constructStripeEvent_frame webhooks_constructEvent
                bytes signature w) as (_ & Hclock & _).
  unfold processWebhook, storageCalls, metadataOf, mbind, M_bind at 1.
  destruct (constructStripeEvent' bytes signature w) as [[e|ev'] w1];
    simplify_eq/=.
  rewrite <- Hclock.
  destruct (String.eqb (ev_type ev) "payment_intent.succeeded").
  - destruct (truthyString _) as [userId|]; [|by rewrite performAll_nil].
    destruct (truthyNumber (numberField Number _ "paymentId")) as [paymentId|];
      destruct (truthyNumber (numberField Number _ "planId")) as [planId|];
      cbv [mbind M_bind mret M_ret newDate];
      rewrite ?storage_update_performs, ?storage_create_performs,
        ?performAll_app, ?performAll_nil; done.
  - destruct (String.eqb (ev_type ev) "payment_intent.payment_failed");
      [|by rewrite performAll_nil].
    destruct (truthyString _) as [userId|]; [|by rewrite performAll_nil].
    destruct (truthyNumber _) as [paymentId|]; [done|].
    by rewrite performAll_nil.
Qed.

(** The rows after the calls of an event are the rows before, each one
    replaced by its [rowAfter]. *)
Lemma storageCalls_rows now ev (s : Store) :
  scheduledPayments (fold_left perform (storageCalls Number now ev) s)
  = rowAfter Number now ev <$> scheduledPayments s.
Proof.
  unfold storageCalls, rowAfter, requestedStatus.
  destruct (String.eqb (ev_type ev) "payment_intent.succeeded") eqn:Hs.
  - destruct (truthyString _) as [userId|]; [|by rewrite list_fmap_id].
    destruct (truthyNumber (numberField Number _ "paymentId")) as [paymentId|];
      destruct (truthyNumber (numberField Number _ "planId")) as [planId|];
      cbn; try by rewrite list_fmap_id.
    all: apply list_fmap_ext; intros i r _;
      by destruct (selects paymentId userId r).
  - destruct (String.eqb (ev_type ev) "payment_intent.payment_failed") eqn:Hf.
    + destruct (truthyString _) as [userId|]; [|by rewrite list_fmap_id].
      destruct (truthyNumber _) as [paymentId|]; [|by rewrite list_fmap_id].
      cbn. apply list_fmap_ext; intros i r _.
      by destruct (selects paymentId userId r).
    + cbn. rewrite <- (list_fmap_id (scheduledPayments s)) at 1.
      apply list_fmap_ext; intros i r _. cbn.
      destruct (truthyString _); [|done].
      destruct (truthyNumber _); [|done].
      by destruct (selects _ _ r).
Qed.

(** The ledger after the calls of an event: one row more for a
    payment-succeeded event with a user and a plan, and the ledger as it
    was in every other case. *)
Lemma storageCalls_transactions now ev (s : Store) :
  transactions (fold_left perform (storageCalls Number now ev) s)
  = transactions s ++
    (if String.eqb (ev_type ev) "payment_intent.succeeded" then
       match truthyString (metadataOf ev !! "userId"),
             truthyNumber (numberField Number (metadataOf ev) "planId") with
       | Some userId, Some planId =>
         [newTransaction (nextTransactionId s) userId
            (mkInsertTransaction planId "payment"
               (pi_amount (ev_data_object ev)) (pi_id (ev_data_object ev))
               "completed"
               match truthyNumber
                       (numberField Number (metadataOf ev) "paymentId") with
               | Some paymentId =>
                 "Payment for scheduled payment #" +:+ pretty paymentId
               | None => "Credit plan payment"
               end)]
       | _, _ => []
       end
     else []).
Proof.
  unfold storageCalls.
  destruct (String.eqb (ev_type ev) "payment_intent.succeeded") eqn:Hs.
  - destruct (truthyString _) as [userId|]; [|by rewrite app_nil_r].
    destruct (truthyNumber (numberField Number _ "paymentId")) as [paymentId|];
      destruct (truthyNumber (numberField Number _ "planId")) as [planId|];
      cbn; by rewrite ?app_nil_r.
  - destruct (String.eqb (ev_type ev) "payment_intent.payment_failed").
    + destruct (truthyString _) as [userId|]; [|by rewrite app_nil_r].
      destruct (truthyNumber _) as [paymentId|]; cbn; by rewrite app_nil_r.
    + by rewrite app_nil_r.
Qed.

(** One verified delivery, seen from the rows of scheduled payments. *)
Lemma processWebhook_rows bytes signature (w : World Store) ev :
  fst (constructStripeEvent' bytes signature w) = inr ev ->
  scheduledPayments (db (snd (processWebhook' (Buffer bytes) signature w)))
  = rowAfter Number (clock w) ev <$> scheduledPayments (db w).
Proof.
  intros Hev. rewrite (processWebhook_storageCalls _ _ _ _ Hev). cbn.
  rewrite storageCalls_rows.
  pose proof (constructStripeEvent_frame webhooks_constructEvent
                bytes signature w) as (_ & _ & _ & Hdb & _).
  cbn in Hdb. by rewrite Hdb.
Qed.

Lemma selects_spec id userId r :
  selects id userId r = true <-> sp_id r = id /\ sp_userId r = userId.
Proof.
  unfold selects. rewrite andb_true_iff, Z.eqb_eq, String.eqb_eq. tauto.
Qed.

Lemma requestedStatus_succeeded ev userId paymentId r :
  ev_type ev = "payment_intent.succeeded" ->
  truthyString (metadataOf ev !! "userId") = Some userId ->
  truthyNumber (numberField Number (metadataOf ev) "paymentId")
  = Some paymentId ->
  requestedStatus Number ev r
  = if selects paymentId userId r then Some completed else None.
Proof.
  intros Ht Hu Hp. unfold requestedStatus. by rewrite Hu, Hp, Ht.
Qed.

Lemma requestedStatus_failed ev userId paymentId r :
  ev_type ev = "payment_intent.payment_failed" ->
  truthyString (metadataOf ev !! "userId") = Some userId ->
  truthyNumber (numberField Number (metadataOf ev) "paymentId")
  = Some paymentId ->
  requestedStatus Number ev r
  = if selects paymentId userId r then Some failed else None.
Proof.
  intros Ht Hu Hp. unfold requestedStatus. by rewrite Hu, Hp, Ht.
Qed.

Lemma requestedStatus_stranger ev r :
  truthyString (metadataOf ev !! "userId") <> Some (sp_userId r) ->
  requestedStatus Number ev r = None.
Proof.
  intros Hne. unfold requestedStatus.
  destruct (truthyString _) as [userId|]; [|done].
  destruct (truthyNumber _) as [paymentId|]; [|done].
  destruct (selects paymentId userId r) eqn:Hsel; [|done].
  apply selects_spec in Hsel as [_ <-]. congruence.
Qed.

Lemma requestedStatus_no_payment ev r :
  truthyNumber (numberField Number (metadataOf ev) "paymentId") = None ->
  requestedStatus Number ev r = None.
Proof.
  intros Hp. unfold requestedStatus. rewrite Hp.
  by destruct (truthyString _).
Qed.

(** C10.  For a verified payment-succeeded event whose metadata carries a
    user identifier and a plan identifier, [processWebhook] returns and the
    ledger has one row more: of type payment, with status completed, for
    the amount and under the id of the payment intent.  It does so also
    when the metadata names no scheduled payment; then the only storage
    call is the one that creates this row, and no scheduled payment is
    touched. *)
Theorem succeeded_appends_transaction
    bytes signature (w : World Store) ev userId planId :
  fst (constructStripeEvent' bytes signature w) = inr ev ->
  ev_type ev = "payment_intent.succeeded" ->
  truthyString (metadataOf ev !! "userId") = Some userId ->
  truthyNumber (numberField Number (metadataOf ev) "planId") = Some planId ->
  fst (processWebhook' (Buffer bytes) signature w) = inr tt
  /\ (exists t,
        transactions (db (snd (processWebhook' (Buffer bytes) signature w)))
        = transactions (db w) ++ [t]
        /\ tx_userId t = userId /\ tx_planId t = planId
        /\ tx_type t = "payment" /\ tx_status t = "completed"
        /\ tx_amount t = pi_amount (ev_data_object ev)
        /\ tx_externalId t = pi_id (ev_data_object ev))
  /\ (truthyNumber (numberField Number (metadataOf ev) "paymentId") = None ->
      scheduledPayments (db (snd (processWebhook' (Buffer bytes) signature w)))
      = scheduledPayments (db w)
      /\ exists t,
          journal (snd (processWebhook' (Buffer bytes) signature w))
          = journal w ++ [CreateTransaction userId t]).
Proof.
  intros Hev Ht Hu Hpl.
  pose proof (constructStripeEvent_frame webhooks_constructEvent
                bytes signature w) as (_ & _ & _ & Hdb & Hj).
  cbn in Hdb, Hj.
  rewrite (processWebhook_storageCalls _ _ _ _ Hev). cbn.
  split; [done|]. split.
  - rewrite storageCalls_transactions, Hu, Hpl, Ht, Hdb. cbn.
    eexists. split; [reflexivity|]. by cbn.
  - intros Hp. split.
    + rewrite storageCalls_rows, Hdb.
      rewrite <- (list_fmap_id (scheduledPayments (db w))) at 2.
      apply list_fmap_ext. intros i r _. unfold rowAfter.
      by rewrite requestedStatus_no_payment.
    + unfold storageCalls. rewrite Hu, Hpl, Hp, Ht, Hj. cbn. by eexists.
Qed.

(** C9.  For a verified payment-failed event whose metadata carries a user
    identifier and a scheduled-payment identifier, [processWebhook] returns,
    its one storage call is the update to status failed under that id and
    that user, the row with that id owned by that user has status failed
    afterwards, a row of another owner is left as it was, and the ledger
    has no new row. *)
Theorem failed_marks_failed_without_transaction
    bytes signature (w : World Store) ev userId paymentId :
  fst (constructStripeEvent' bytes signature w) = inr ev ->
  ev_type ev = "payment_intent.payment_failed" ->
  truthyString (metadataOf ev !! "userId") = Some userId ->
  truthyNumber (numberField Number (metadataOf ev) "paymentId")
  = Some paymentId ->
  fst (processWebhook' (Buffer bytes) signature w) = inr tt
  /\ journal (snd (processWebhook' (Buffer bytes) signature w))
     = journal w
       ++ [UpdateScheduledPayment paymentId userId (mkPatch (Some failed) None)]
  /\ transactions (db (snd (processWebhook' (Buffer bytes) signature w)))
     = transactions (db w)
  /\ (forall (i : nat) r,
        scheduledPayments (db w) !! i = Some r ->
        sp_id r = paymentId -> sp_userId r = userId ->
        exists r',
          scheduledPayments
            (db (snd (processWebhook' (Buffer bytes) signature w))) !! i
          = Some r'
          /\ sp_status r' = failed /\ sp_paidAt r' = sp_paidAt r
          /\ sp_id r' = sp_id r /\ sp_userId r' = sp_userId r)
  /\ (forall (i : nat) r,
        scheduledPayments (db w) !! i = Some r ->
        sp_userId r <> userId ->
        scheduledPayments
          (db (snd (processWebhook' (Buffer bytes) signature w))) !! i
        = Some r).
Proof.
  intros Hev Ht Hu Hp.
  pose proof (constructStripeEvent_frame webhooks_constructEvent
                bytes signature w) as (_ & _ & _ & Hdb & Hj).
  cbn in Hdb, Hj.
  rewrite (processWebhook_rows _ _ _ _ Hev).
  rewrite (processWebhook_storageCalls _ _ _ _ Hev). cbn.
  assert (String.eqb (ev_type ev) "payment_intent.succeeded" = false) as Hs
    by (rewrite Ht; reflexivity).
  split; [done|]. split; [|split; [|split]].
  - unfold storageCalls. by rewrite Hu, Hp, Hs, Ht, Hj.
  - by rewrite storageCalls_transactions, Hs, app_nil_r, Hdb.
  - intros i r Hr Hid Hown. rewrite list_lookup_fmap, Hr. cbn.
    eexists. split; [reflexivity|]. unfold rowAfter.
    rewrite (requestedStatus_failed _ _ _ _ Ht Hu Hp).
    by rewrite (proj2 (selects_spec paymentId userId r) (conj Hid Hown)).
  - intros i r Hr Hown. rewrite list_lookup_fmap, Hr. cbn.
    unfold rowAfter. rewrite requestedStatus_stranger; [done|].
    rewrite Hu. congruence.
Qed.

(** C6, as the code has it.  For a verified payment-succeeded event whose
    metadata carries a user identifier and a scheduled-payment identifier,
    [processWebhook] issues the update to status completed with [paidAt]
    read from the clock at the time of processing; the row with that id
    owned by that user is completed afterwards and its [paidAt] is the
    time of processing, whatever time the event carries. *)
Theorem succeeded_completes_at_processing_time
    bytes signature (w : World Store) ev userId paymentId (i : nat) r :
  fst (constructStripeEvent' bytes signature w) = inr ev ->
  ev_type ev = "payment_intent.succeeded" ->
  truthyString (metadataOf ev !! "userId") = Some userId ->
  truthyNumber (numberField Number (metadataOf ev) "paymentId")
  = Some paymentId ->
  scheduledPayments (db w) !! i = Some r ->
  sp_id r = paymentId -> sp_userId r = userId ->
  fst (processWebhook' (Buffer bytes) signature w) = inr tt
  /\ (exists rest,
        journal (snd (processWebhook' (Buffer bytes) signature w))
        = journal w
          ++ UpdateScheduledPayment paymentId userId
               (mkPatch (Some completed) (Some (clock w))) :: rest)
  /\ exists r',
       scheduledPayments
         (db (snd (processWebhook' (Buffer bytes) signature w))) !! i
       = Some r'
       /\ sp_status r' = completed /\ sp_paidAt r' = Some (clock w)
       /\ sp_id r' = sp_id r /\ sp_userId r' = sp_userId r
       /\ sp_amount r' = sp_amount r /\ sp_dueDate r' = sp_dueDate r.
Proof.
  intros Hev Ht Hu Hp Hr Hid Hown.
  pose proof (constructStripeEvent_frame webhooks_constructEvent
                bytes signature w) as (_ & _ & _ & Hdb & Hj).
  cbn in Hdb, Hj.
  rewrite (processWebhook_rows _ _ _ _ Hev).
  rewrite (processWebhook_storageCalls _ _ _ _ Hev). cbn.
  split; [done|]. split.
  - unfold storageCalls. rewrite Hu, Hp, Ht, Hj. cbn. by eexists.
  - rewrite list_lookup_fmap, Hr. cbn.
    eexists. split; [reflexivity|]. unfold rowAfter.
    rewrite (requestedStatus_succeeded _ _ _ _ Ht Hu Hp).
    by rewrite (proj2 (selects_spec paymentId userId r) (conj Hid Hown)).
Qed.

(** C7.  For a verified event whose metadata does not carry the user
    identifier of the owner of a row, processing the event leaves that row
    exactly as it was: the update is scoped by the user identifier of the
    event, and a mismatch of owners is a no-op. *)
Theorem stranger_event_leaves_row
    bytes signature (w : World Store) ev (i : nat) r :
  fst (constructStripeEvent' bytes signature w) = inr ev ->
  scheduledPayments (db w) !! i = Some r ->
  truthyString (metadataOf ev !! "userId") <> Some (sp_userId r) ->
  fst (processWebhook' (Buffer bytes) signature w) = inr tt
  /\ scheduledPayments
       (db (snd (processWebhook' (Buffer bytes) signature w))) !! i
     = Some r.
Proof.
  intros Hev Hr Hne. split.
  - by rewrite (processWebhook_storageCalls _ _ _ _ Hev).
  - rewrite (processWebhook_rows _ _ _ _ Hev).
    rewrite list_lookup_fmap, Hr. cbn. unfold rowAfter.
    by rewrite requestedStatus_stranger.
Qed.

End StoreFacts.

(** * The handlers on the sample data *)

Section Runs.

Import Fixture Sample.

Local Ltac run := vm_compute; reflexivity.

Abbreviation process := (processWebhook (DB := Store) decimalNumber verifier).
Abbreviation constructSample :=
  (constructStripeEvent (DB := Store) verifier).

Lemma deliverySucceeded_authentic :
  Authentic verifier world0 deliverySucceeded evSucceeded.
Proof. exists bodySucceeded. split; run. Qed.

(** A plan payment without a scheduled payment: one ledger row, and the
    scheduled payments as they were. *)
Lemma succeeded_appends_transaction_witness :
  transactions
    (db (snd (process (Buffer bodyPlanOnly) goodSignature world0)))
  = [mkTransaction 1 "u1" 7 "payment" 2500 "pi_2" "completed"
       "Credit plan payment"]
  /\ scheduledPayments
       (db (snd (process (Buffer bodyPlanOnly) goodSignature world0)))
     = [row3].
Proof.
  destruct (succeeded_appends_transaction decimalNumber verifier
              bodyPlanOnly goodSignature world0 evPlanOnly "u1" 7)
    as (_ & _ & Hrows); [run ..|].
  split; [run|]. apply Hrows. run.
Defined.

(** A failed payment of the owner of row 3. *)
Lemma failed_marks_failed_without_transaction_witness :
  journal (snd (process (Buffer bodyFailed) goodSignature world0))
  = [UpdateScheduledPayment 3 "u1" (mkPatch (Some failed) None)]
  /\ transactions (db (snd (process (Buffer bodyFailed) goodSignature world0)))
     = [].
Proof.
  destruct (failed_marks_failed_without_transaction decimalNumber verifier
              bodyFailed goodSignature world0 evFailed "u1" 3)
    as (_ & Hj & Htx & _); [run ..|].
  split; [exact Hj | exact Htx].
Defined.

(** A succeeded payment of the owner of row 3, processed at [laterTime]. *)
Lemma succeeded_completes_at_processing_time_witness :
  exists r',
    scheduledPayments
      (db (snd (process (Buffer bodySucceeded) goodSignature
                  (set_clock laterTime world0)))) !! 0%nat
    = Some r'
    /\ sp_status r' = completed /\ sp_paidAt r' = Some laterTime.
Proof.
  destruct (succeeded_completes_at_processing_time decimalNumber verifier
              bodySucceeded goodSignature (set_clock laterTime world0)
              evSucceeded "u1" 3 0%nat row3)
    as (_ & _ & r' & Hr & Hst & Hpaid & _); [run ..|].
  exists r'. by repeat split.
Defined.

(** An event of user u2 that names row 3, which user u1 owns. *)
Lemma stranger_event_leaves_row_witness :
  scheduledPayments
    (db (snd (process (Buffer bodyStranger) goodSignature world0))) !! 0%nat
  = Some row3.
Proof.
  apply (stranger_event_leaves_row decimalNumber verifier bodyStranger
           goodSignature world0 evStranger 0%nat row3);
    [run | run | vm_compute; discriminate].
Defined.

(** C6, as stated, fails: the event carries the time 1700000000 s, the
    handler runs an hour later, and [paidAt] is the later time. *)
Lemma paidAt_is_not_event_time :
  Authentic verifier world0 deliverySucceeded evSucceeded
  /\ ev_created evSucceeded = 1700000000
  /\ head (journal (snd (deliver decimalNumber verifier deliverySucceeded
                           world0)))
     = Some (UpdateScheduledPayment 3 "u1"
               (mkPatch (Some completed) (Some 1700003600000)))
  /\ sp_paidAt
       <$> scheduledPayments
             (db (snd (deliver decimalNumber verifier deliverySucceeded
                         world0)))
     = [Some 1700003600000]
  /\ 1700003600000 <> ev_created evSucceeded * 1000
  /\ 1700003600000 <> ev_created evSucceeded.
Proof.
  split; [exact deliverySucceeded_authentic|].
  split; [run|]. split; [run|]. split; [run|].
  split; vm_compute; discriminate.
Qed.

End Runs.

(** * Properties of doubles

    The division and the ceiling of doubles on integers that are positive
    and below 2^53, where every integer is a double. *)

Section DoubleFacts.

Import Double.

Lemma digits2_pos_bounds p :
  2 ^ (Z.pos (digits2_pos p) - 1) <= Z.pos p < 2 ^ Z.pos (digits2_pos p).
Proof.
  induction p as [p IH|p IH|]; cbn [digits2_pos]; [| |cbn; lia].
  all: rewrite Pos2Z.inj_succ, Z.pow_succ_r by lia.
  all: replace (Z.succ (Z.pos (digits2_pos p)) - 1)
         with (Z.succ (Z.pos (digits2_pos p) - 1)) by lia.
  all: rewrite Z.pow_succ_r by lia; lia.
Qed.

Lemma digits2_pos_unique p n :
  2 ^ (n - 1) <= Z.pos p < 2 ^ n -> Z.pos (digits2_pos p) = n.
Proof.
  intros [Hlo Hhi]. pose proof (digits2_pos_bounds p) as [Hlo' Hhi'].
  set (d := Z.pos (digits2_pos p)) in *.
  assert (0 < n).
  { destruct (Z.lt_trichotomy n 0) as [Hn|[->|Hn]]; [|cbn in Hhi; lia|done].
    rewrite Z.pow_neg_r in Hhi by lia. lia. }
  destruct (Z.lt_trichotomy d n) as [Hlt | [Heq | Hgt]]; [|done|].
  - pose proof (Z.pow_le_mono_r 2 d (n - 1) ltac:(lia) ltac:(lia)). lia.
  - pose proof (Z.pow_le_mono_r 2 n (d - 1) ltac:(lia) ltac:(lia)). lia.
Qed.

Lemma iter_xO p d : Z.pos (Pos.iter xO p d) = Z.pos p * 2 ^ Z.pos d.
Proof.
  induction d as [|d IH] using Pos.peano_ind.
  - cbn. lia.
  - rewrite Pos.iter_succ, Pos2Z.inj_succ, Z.pow_succ_r by lia.
    rewrite Pos2Z.inj_xO, IH. lia.
Qed.

Lemma shl_align_spec mx ex ex' :
  ex' <= ex ->
  shl_align mx ex ex'
  = (Z.to_pos (Z.pos mx * 2 ^ (ex - ex')), ex').
Proof.
  intros Hle. unfold shl_align.
  destruct (ex' - ex) as [|d|d] eqn:Hd; [|lia|].
  - assert (ex' = ex) as -> by lia. rewrite Z.sub_diag, Z.pow_0_r, Z.mul_1_r. done.
  - replace (ex - ex') with (Z.pos d) by lia.
    by rewrite <- iter_xO, Pos2Z.id.
Qed.

(** A mantissa of 53 bits with an exponent in range is not rounded. *)
Lemma binary_round_aux_exact s m e :
  Z.pos (digits2_pos m) = 53 -> -1074 <= e <= 971 ->
  binary_round_aux prec emax s (Z.pos m) e loc_Exact = S754_finite s m e.
Proof.
  intros Hd He.
  assert (fexp prec emax (Z.pos (digits2_pos m) + e) - e = 0) as Hf
    by (unfold fexp, SpecFloat.emin, prec, emax; lia).
  unfold binary_round_aux, shr_fexp. cbn [Zdigits2 shr_record_of_loc].
  rewrite Hf. cbn [shr shr_m loc_of_shr_record round_nearest_even Zdigits2
                   shr_record_of_loc].
  rewrite Hf. cbn [shr shr_m].
  destruct (Z.leb_spec e (emax - prec)); [done|unfold emax, prec in *; lia].
Qed.

Lemma ofZ_normal a :
  0 < a < 2 ^ 53 ->
  exists m e,
    ofZ a = S754_finite false m e
    /\ Z.pos (digits2_pos m) = 53
    /\ -52 <= e <= 0
    /\ Z.pos m = a * 2 ^ (- e).
Proof.
  intros [Hpos Hlt]. destruct a as [|p|p]; [lia| |lia].
  pose proof (digits2_pos_bounds p) as [Hlo Hhi].
  set (d := Z.pos (digits2_pos p)) in *.
  assert (1 <= d <= 53) as Hd.
  { split; [subst d; lia|].
    destruct (Z.le_gt_cases d 53) as [|Hgt]; [done|].
    pose proof (Z.pow_le_mono_r 2 53 (d - 1) ltac:(lia) ltac:(lia)). lia. }
  unfold ofZ, binary_normalize, binary_round.
  fold d.
  assert (fexp prec emax (d + 0) = d - 53) as ->
    by (unfold fexp, SpecFloat.emin, prec, emax; lia).
  rewrite shl_align_spec by lia.
  assert (0 < Z.pos p * 2 ^ (0 - (d - 53))) as Hm by (apply Z.mul_pos_pos; [lia|apply Z.pow_pos_nonneg; lia]).
  destruct (Z.pos p * 2 ^ (0 - (d - 53))) as [|m|m] eqn:Hmv; [lia| |lia].
  cbn [Z.to_pos].
  assert (Z.pos (digits2_pos m) = 53) as Hdm.
  { apply digits2_pos_unique. rewrite <- Hmv.
    replace (0 - (d - 53)) with (53 - d) by lia.
    replace (2 ^ (53 - 1)) with (2 ^ (d - 1) * 2 ^ (53 - d))
      by (rewrite <- Z.pow_add_r by lia; f_equal; lia).
    replace (2 ^ 53) with (2 ^ d * 2 ^ (53 - d))
      by (rewrite <- Z.pow_add_r by lia; f_equal; lia).
    pose proof (Z.pow_pos_nonneg 2 (53 - d) ltac:(lia) ltac:(lia)).
    nia. }
  exists m, (d - 53). rewrite binary_round_aux_exact by (done || lia).
  repeat split; try done; try lia.
Qed.

Lemma new_location_spec d r :
  0 < d -> 0 <= r < d ->
  new_location d r = if r =? 0 then loc_Exact else loc_Inexact (2 * r ?= d).
Proof.
  intros Hd Hr. unfold new_location, new_location_even, new_location_odd.
  destruct (Z.even d) eqn:He; destruct (r =? 0); try done.
  f_equal.
  assert (Z.odd d = true) as Hodd by (by rewrite <- Z.negb_even, He).
  apply Z.odd_spec in Hodd as [c ->].
  destruct (Z.compare_spec (2 * r + 1) (2 * c + 1)),
    (Z.compare_spec (2 * r) (2 * c + 1)); try done; lia.
Qed.

(** The second alignment of [binary_round_aux]: a mantissa of 53 bits is
    kept, and 2^53 becomes 2^52 with the next exponent. *)
Lemma binary_round_aux_carry s m1 e :
  2 ^ 52 <= m1 <= 2 ^ 53 -> -1074 <= e <= 970 ->
  (let '(mrs, e') := shr_fexp prec emax m1 e loc_Exact in
   match shr_m mrs with
   | Z0 => S754_zero s
   | Z.pos m =>
     if e' <=? emax - prec then S754_finite s m e' else S754_infinity s
   | Z.neg _ => S754_nan
   end)
  = if m1 <? 2 ^ 53 then S754_finite s (Z.to_pos m1) e
    else S754_finite s (Z.to_pos (2 ^ 52)) (e + 1).
Proof.
  intros Hm He. destruct m1 as [|p|p]; [lia| |lia].
  destruct (Z.ltb_spec (Z.pos p) (2 ^ 53)) as [Hlt|Hge].
  - assert (Z.pos (digits2_pos p) = 53) as Hd
      by (apply digits2_pos_unique; lia).
    assert (fexp prec emax (Z.pos (digits2_pos p) + e) - e = 0) as Hf
      by (unfold fexp, SpecFloat.emin, prec, emax; lia).
    unfold shr_fexp. cbn [Zdigits2 shr_record_of_loc]. rewrite Hf.
    cbn [shr shr_m Z.to_pos].
    destruct (Z.leb_spec e (emax - prec)); [done|unfold emax, prec in *; lia].
  - assert (Z.pos p = 2 ^ 53) as Hp by lia.
    assert (Z.pos (digits2_pos p) = 54) as Hd
      by (apply digits2_pos_unique; lia).
    assert (fexp prec emax (Z.pos (digits2_pos p) + e) - e = 1) as Hf
      by (unfold fexp, SpecFloat.emin, prec, emax; lia).
    unfold shr_fexp. cbn [Zdigits2 shr_record_of_loc]. rewrite Hf.
    cbn [shr iter_pos].
    destruct p as [p'|p'|]; [lia| |lia].
    cbn [shr_1 orb shr_m].
    assert (Z.pos p' = 2 ^ 52) as Hp' by lia.
    rewrite <- Hp'. cbn [Z.to_pos].
    destruct (Z.leb_spec (e + 1) (emax - prec));
      [done|unfold emax, prec in *; lia].
Qed.

Lemma shr_m_of_loc m l : shr_m (shr_record_of_loc m l) = m.
Proof. by destruct l as [|[]]. Qed.

Lemma loc_of_shr_record_of_loc m l :
  loc_of_shr_record (shr_record_of_loc m l) = l.
Proof. by destruct l as [|[]]. Qed.

(** Rounding a quotient of 53 or 54 bits to the nearest mantissa of 53
    bits, ties to even: [q] and [r] are the quotient and the remainder of a
    division by [d]. *)
Lemma binary_round_aux_nearest q e d r :
  2 ^ 52 <= q < 2 ^ 54 -> -1074 <= e <= 968 -> 0 < d -> 0 <= r < d ->
  exists m1 t,
    binary_round_aux prec emax false q e
      (if r =? 0 then loc_Exact else loc_Inexact (2 * r ?= d))
    = (if m1 <? 2 ^ 53 then S754_finite false (Z.to_pos m1) (e + t)
       else S754_finite false (Z.to_pos (2 ^ 52)) (e + t + 1))
    /\ 2 ^ 52 <= m1 <= 2 ^ 53
    /\ (t = 0 \/ t = 1)
    /\ Z.abs (2 * d * (m1 * 2 ^ t - q) - 2 * r) <= 2 ^ t * d.
Proof.
  intros Hq He Hd Hr. destruct q as [|pq|pq]; [lia| |lia].
  set (l := if r =? 0 then loc_Exact else loc_Inexact (2 * r ?= d)).
  unfold binary_round_aux.
  destruct (Z.lt_ge_cases (Z.pos pq) (2 ^ 53)) as [Hlt|Hge].
  - assert (Z.pos (digits2_pos pq) = 53) as Hdq
      by (apply digits2_pos_unique; lia).
    assert (fexp prec emax (Z.pos (digits2_pos pq) + e) - e = 0) as Hf
      by (unfold fexp, SpecFloat.emin, prec, emax; lia).
    unfold shr_fexp at 1. cbn [Zdigits2]. rewrite Hf. cbn [shr].
    rewrite shr_m_of_loc, loc_of_shr_record_of_loc.
    exists (round_nearest_even (Z.pos pq) l), 0.
    assert (round_nearest_even (Z.pos pq) l = Z.pos pq
            /\ 2 * r <= d
            \/ round_nearest_even (Z.pos pq) l = Z.pos pq + 1
               /\ d <= 2 * r) as Hround.
    { unfold l.
      destruct (Z.eqb_spec r 0) as [->|Hr0]; cbn [round_nearest_even];
        [left; lia|].
      destruct (Z.compare_spec (2 * r) d); cbn [round_nearest_even];
        [|left; lia|right; lia].
      destruct (Z.even (Z.pos pq)); [left|right]; lia. }
    rewrite binary_round_aux_carry, Z.add_0_r by lia.
    split; [done|]. split; [lia|]. split; [by left|].
    change (2 ^ 0) with 1. destruct Hround as [[-> ?] | [-> ?]]; nia.
  - assert (Z.pos (digits2_pos pq) = 54) as Hdq
      by (apply digits2_pos_unique; lia).
    assert (fexp prec emax (Z.pos (digits2_pos pq) + e) - e = 1) as Hf
      by (unfold fexp, SpecFloat.emin, prec, emax; lia).
    unfold shr_fexp at 1. cbn [Zdigits2]. rewrite Hf. cbn [shr iter_pos].
    set (mrs := shr_1 (shr_record_of_loc (Z.pos pq) l)).
    exists (round_nearest_even (shr_m mrs) (loc_of_shr_record mrs)), 1.
    assert (exists m1,
              round_nearest_even (shr_m mrs) (loc_of_shr_record mrs) = m1
              /\ Z.abs (2 * d * (m1 * 2 - Z.pos pq) - 2 * r) <= 2 * d
              /\ 2 * m1 <= Z.pos pq + 1 /\ Z.pos pq <= 2 * m1 + 1)
      as (m1 & -> & Hm1 & Hlo & Hhi).
    { unfold mrs, l.
      destruct (Z.eqb_spec r 0) as [->|Hr0];
        [|destruct (Z.compare_spec (2 * r) d)];
        destruct pq as [p|p|]; try lia;
        cbn [shr_record_of_loc shr_1 orb shr_m loc_of_shr_record
             round_nearest_even];
        try destruct (Z.even (Z.pos p));
        eexists; (split; [reflexivity|]); nia. }
    rewrite binary_round_aux_carry by lia.
    split; [done|]. split; [lia|]. split; [by right|].
    change (2 ^ 1) with 2. lia.
Qed.

Lemma digits2_pos_53 m :
  Z.pos (digits2_pos m) = 53 -> 2 ^ 52 <= Z.pos m < 2 ^ 53.
Proof. intros H. pose proof (digits2_pos_bounds m). by rewrite H in *. Qed.

(** The quotient of two normal doubles with small exponents. *)
Lemma div_normal mx ex my ey :
  Z.pos (digits2_pos mx) = 53 -> Z.pos (digits2_pos my) = 53 ->
  -52 <= ex <= 0 -> -52 <= ey <= 0 ->
  exists q r m1 t,
    Z.pos mx * 2 ^ 53 = Z.pos my * q + r
    /\ 0 <= r < Z.pos my
    /\ div (S754_finite false mx ex) (S754_finite false my ey)
       = (if m1 <? 2 ^ 53
          then S754_finite false (Z.to_pos m1) (ex - ey - 53 + t)
          else S754_finite false (Z.to_pos (2 ^ 52)) (ex - ey - 53 + t + 1))
    /\ 2 ^ 52 <= m1 <= 2 ^ 53
    /\ (t = 0 \/ t = 1)
    /\ Z.abs (2 * Z.pos my * (m1 * 2 ^ t - q) - 2 * r) <= 2 ^ t * Z.pos my.
Proof.
  intros Hdx Hdy Hex Hey.
  pose proof (digits2_pos_53 mx Hdx) as Hmx.
  pose proof (digits2_pos_53 my Hdy) as Hmy.
  unfold div, SFdiv, SFdiv_core_binary. cbn [Zdigits2 xorb].
  rewrite Hdx, Hdy.
  assert (Z.min (fexp prec emax (53 + ex - (53 + ey))) (ex - ey)
          = ex - ey - 53) as ->
    by (unfold fexp, SpecFloat.emin, prec, emax; lia).
  replace (ex - ey - (ex - ey - 53)) with 53 by lia. cbv iota.
  rewrite Z.shiftl_mul_pow2 by lia.
  pose proof (Z_div_mod (Z.pos mx * 2 ^ 53) (Z.pos my) ltac:(lia)) as Hdiv.
  destruct (Z.div_eucl (Z.pos mx * 2 ^ 53) (Z.pos my)) as [q r].
  destruct Hdiv as [Hqr Hr].
  rewrite new_location_spec by lia.
  assert (2 ^ 52 <= q < 2 ^ 54) as Hq.
  { change (2 ^ 52) with 4503599627370496 in *.
    change (2 ^ 53) with 9007199254740992 in *.
    change (2 ^ 54) with 18014398509481984. nia. }
  destruct (binary_round_aux_nearest q (ex - ey - 53) (Z.pos my) r)
    as (m1 & t & Hres & Hm1 & Ht & Hnear); [done|lia|lia|lia|].
  exists q, r, m1, t. by rewrite Hres.
Qed.

Lemma ceiling_bounds a b :
  0 < b -> (ceiling a b - 1) * b < a <= ceiling a b * b.
Proof.
  intros Hb. unfold ceiling.
  pose proof (Z.div_mod (- a) b ltac:(lia)) as Hdiv.
  pose proof (Z.mod_pos_bound (- a) b Hb) as Hmod.
  nia.
Qed.

Lemma ceiling_unique a b k :
  0 < b -> (k - 1) * b < a <= k * b -> ceiling a b = k.
Proof.
  intros Hb Hk. pose proof (ceiling_bounds a b Hb). nia.
Qed.

(** A mantissa that is nearest to the quotient [a / b] at the scale [G]
    has the ceiling of the quotient, as long as [a] is below 2^53. *)
Lemma nearest_ceiling a b G m1 :
  0 < a < 2 ^ 53 -> 0 < b -> 0 < G -> 2 ^ 52 <= m1 ->
  Z.abs (2 * (b * m1 - a * G)) <= b ->
  (ceiling a b - 1) * G < m1 <= ceiling a b * G.
Proof.
  intros Ha Hb HG Hm1 Hnear.
  pose proof (ceiling_bounds a b Hb) as [Hlo Hhi].
  set (k := ceiling a b) in *.
  change (2 ^ 52) with 4503599627370496 in *.
  change (2 ^ 53) with 9007199254740992 in *.
  split.
  - destruct (Z.lt_ge_cases ((k - 1) * G) m1) as [|Hle]; [done|exfalso].
    assert (b * m1 <= b * ((k - 1) * G)) by nia.
    assert ((k - 1) * b * G + G <= a * G) by nia.
    assert (2 * G <= b) by lia.
    assert (2 * G * m1 <= b * m1) by nia.
    assert (2 * G * 4503599627370496 <= 2 * G * m1) by nia.
    assert (a * G < 9007199254740992 * G) by nia.
    lia.
  - destruct (Z.le_gt_cases m1 (k * G)) as [|Hgt]; [done|exfalso].
    assert (b * (k * G + 1) <= b * m1) by nia.
    assert (a * G <= k * b * G) by nia.
    lia.
Qed.

Lemma ofZ_53_bits k :
  2 ^ 52 <= k < 2 ^ 53 -> ofZ k = S754_finite false (Z.to_pos k) 0.
Proof.
  intros Hk.
  destruct (ofZ_normal k) as (m & e & -> & Hd & He & Hm); [lia|].
  apply digits2_pos_53 in Hd.
  assert (e = 0) as ->.
  { destruct (Z.eq_dec e 0) as [|Hne]; [done|exfalso].
    pose proof (Z.pow_le_mono_r 2 1 (- e) ltac:(lia) ltac:(lia)) as Hp.
    change (2 ^ 1) with 2 in Hp. nia. }
  change (2 ^ (- 0)) with 1 in Hm. rewrite Z.mul_1_r in Hm.
  by rewrite <- Hm.
Qed.

(** [Math.ceil(a / b)] in doubles is the ceiling of the quotient, for
    integers [a] and [b] that are positive and below 2^53. *)
Theorem Math_ceil_div_exact a b :
  0 < a < 2 ^ 53 -> 0 < b < 2 ^ 53 ->
  Math_ceil (div (ofZ a) (ofZ b)) = ofZ (ceiling a b).
Proof.
  intros Ha Hb.
  destruct (ofZ_normal a Ha) as (mx & ex & -> & Hdx & Hex & Hmx).
  destruct (ofZ_normal b Hb) as (my & ey & -> & Hdy & Hey & Hmy).
  destruct (div_normal mx ex my ey Hdx Hdy Hex Hey)
    as (q & r & m1 & t & Hqr & Hr & -> & Hm1 & Ht & Hnear).
  set (g := - (ex - ey - 53 + t)).
  assert (0 <= g) as Hg by (unfold g; lia).
  assert (0 < 2 ^ (- ex)) as HA by (apply Z.pow_pos_nonneg; lia).
  assert (0 < 2 ^ (- ey)) as HB by (apply Z.pow_pos_nonneg; lia).
  assert (0 < 2 ^ t) as HT by (apply Z.pow_pos_nonneg; lia).
  assert (0 < 2 ^ g) as HG by (apply Z.pow_pos_nonneg; lia).
  assert (2 ^ t * 2 ^ g * 2 ^ (- ey) = 2 ^ 53 * 2 ^ (- ex)) as Hscale.
  { rewrite <- !Z.pow_add_r by lia. f_equal. unfold g. lia. }
  assert (Z.abs (2 * (b * m1 - a * 2 ^ g)) <= b) as Hnear'.
  { assert (2 * Z.pos my * (m1 * 2 ^ t - q) - 2 * r
            = 2 ^ t * 2 ^ (- ey) * (2 * (b * m1 - a * 2 ^ g))) as Heq.
    { transitivity (2 * Z.pos my * m1 * 2 ^ t - 2 * (Z.pos my * q + r));
        [ring|].
      rewrite <- Hqr, Hmx, Hmy.
      transitivity (2 * b * 2 ^ (- ey) * m1 * 2 ^ t
                    - 2 * a * (2 ^ 53 * 2 ^ (- ex))); [ring|].
      rewrite <- Hscale. ring. }
    rewrite Heq, Hmy in Hnear.
    rewrite Z.abs_mul in Hnear.
    rewrite (Z.abs_eq (2 ^ t * 2 ^ (- ey))) in Hnear by nia.
    assert (0 < 2 ^ t * 2 ^ (- ey)) as HTB by nia.
    apply (Z.mul_le_mono_pos_l _ _ (2 ^ t * 2 ^ (- ey))); [done|].
    lia. }
  pose proof (nearest_ceiling a b (2 ^ g) m1 Ha ltac:(lia) HG ltac:(lia)
                Hnear') as Hk.
  pose proof (ceiling_bounds a b ltac:(lia)) as Hkb.
  set (k := ceiling a b) in *.
  assert (1 <= k <= a) as Hka by nia.
  replace (ex - ey - 53 + t) with (- g) by (unfold g; lia).
  clearbody g k. clear Hnear Hnear' Hscale Hqr Hr Hmx Hmy Hkb.
  destruct (Z.ltb_spec m1 (2 ^ 53)) as [Hlt|Hge].
  - unfold Math_ceil. destruct (Z.leb_spec 0 (- g)) as [Hg0|Hg0].
    + assert (g = 0) as -> by lia. change (2 ^ 0) with 1 in Hk.
      assert (m1 = k) as -> by lia.
      by rewrite ofZ_53_bits by lia.
    + rewrite Z2Pos.id, Z.opp_involutive by lia.
      change (- (- m1 / 2 ^ g)) with (ceiling m1 (2 ^ g)).
      by rewrite (ceiling_unique m1 (2 ^ g) k) by lia.
  - assert (m1 = 2 ^ 53) as -> by lia.
    assert (1 <= g) as Hg1.
    { destruct (Z.eq_dec g 0) as [->|]; [|lia].
      change (2 ^ 0) with 1 in Hk. lia. }
    replace (2 ^ g) with (2 * 2 ^ (g - 1)) in Hk
      by (rewrite <- Z.pow_succ_r by lia; f_equal; lia).
    assert (0 < 2 ^ (g - 1)) as HG' by (apply Z.pow_pos_nonneg; lia).
    change (2 ^ 53) with (2 * 2 ^ 52) in Hk.
    unfold Math_ceil. destruct (Z.leb_spec 0 (- g + 1)) as [Hg0|Hg0].
    + assert (g = 1) as -> by lia. change (2 ^ (1 - 1)) with 1 in Hk.
      assert (k = 2 ^ 52) as -> by lia. reflexivity.
    + rewrite Z2Pos.id by done.
      replace (- (- g + 1)) with (g - 1) by lia.
      change (- (- 2 ^ 52 / 2 ^ (g - 1))) with (ceiling (2 ^ 52) (2 ^ (g - 1))).
      by rewrite (ceiling_unique (2 ^ 52) (2 ^ (g - 1)) k) by lia.
Qed.

Lemma toZ_ofZ a : 0 < a < 2 ^ 53 -> toZ (ofZ a) = Some a.
Proof.
  intros Ha.
  destruct (ofZ_normal a Ha) as (m & e & -> & _ & He & Hm).
  unfold toZ. destruct (Z.leb_spec 0 e) as [He0|He0].
  - assert (e = 0) as -> by lia. change (2 ^ (- 0)) with 1 in Hm.
    change (2 ^ 0) with 1. f_equal. lia.
  - assert (0 < 2 ^ (- e)) by (apply Z.pow_pos_nonneg; lia).
    rewrite Hm, Z_mod_mult, Z_div_mult by lia. cbn. f_equal. lia.
Qed.

(** Doubles that are positive integers below 2^53 compare as the integers
    do. *)
Lemma leb_ofZ a b :
  0 < a < 2 ^ 53 -> 0 < b < 2 ^ 53 -> leb (ofZ a) (ofZ b) = (a <=? b).
Proof.
  intros Ha Hb.
  destruct (ofZ_normal a Ha) as (mx & ex & -> & Hdx & Hex & Hmx).
  destruct (ofZ_normal b Hb) as (my & ey & -> & Hdy & Hey & Hmy).
  apply digits2_pos_53 in Hdx, Hdy.
  assert (0 < 2 ^ (- ex)) as HA by (apply Z.pow_pos_nonneg; lia).
  assert (0 < 2 ^ (- ey)) as HB by (apply Z.pow_pos_nonneg; lia).
  unfold leb, SFleb, SFcompare.
  destruct (Z.compare_spec ex ey) as [->|Hlt|Hgt].
  - change (Pos.compare_cont Eq mx my) with (Z.pos mx ?= Z.pos my).
    destruct (Z.compare_spec (Z.pos mx) (Z.pos my));
      destruct (Z.leb_spec a b); try done; nia.
  - assert (2 * 2 ^ (- ey) <= 2 ^ (- ex)).
    { rewrite <- Z.pow_succ_r by lia. apply Z.pow_le_mono_r; lia. }
    destruct (Z.leb_spec a b); [done|].
    change (2 ^ 52) with 4503599627370496 in *.
    change (2 ^ 53) with 9007199254740992 in *. nia.
  - assert (2 * 2 ^ (- ex) <= 2 ^ (- ey)).
    { rewrite <- Z.pow_succ_r by lia. apply Z.pow_le_mono_r; lia. }
    destruct (Z.leb_spec a b); [|done].
    change (2 ^ 52) with 4503599627370496 in *.
    change (2 ^ 53) with 9007199254740992 in *. nia.
Qed.

End DoubleFacts.

(** * Properties of the plan form and of the schedule *)

Section PlanFacts.

Import CreditPlans PlanEngine.

Variable parseDate : string -> option CalendarDate.

(** What [createMutation] posts for a total and a term that are integers
    below 2^53: the monthly payment is the ceiling of their quotient. *)
Lemma createMutation_integers data total term start :
  totalAmount data = Double.ofZ total ->
  termMonths data = Double.ofZ term ->
  0 < total < 2 ^ 53 -> 0 < term < 2 ^ 53 ->
  parseDate (startDate data) = Some start ->
  createMutation parseDate data
  = Some (mkCreatePlanRequest (planName data) (Double.ofZ total)
            (Double.ofZ (ceiling total term)) (Double.ofZ term) start
            (autopayEnabled data) "active").
Proof.
  intros Htotal Hterm Ha Hb Hstart. unfold createMutation.
  by rewrite Hstart, Htotal, Hterm, Math_ceil_div_exact.
Qed.

Lemma ceiling_range a b : 0 < a -> 0 < b -> 1 <= ceiling a b <= a.
Proof. intros Ha Hb. pose proof (ceiling_bounds a b Hb). nia. Qed.










End PlanFacts.



(** With the remainder on the last installment, a small total over a long
    term leaves a last installment below zero; the amounts still add up. *)
Example last_installment_below_zero :
  PlanEngine.installment 100 60 59 = -18
  /\ PlanEngine.totalOf
       (PlanEngine.generateSchedule "u1" 7 1 100 60 (mkDate 2024 1 31)) = 100.
Proof. split; vm_compute; reflexivity. Qed.

(** * Properties of the checkout form *)

Section CheckoutFacts.

Import PaymentSheet.

(** After a success that the client observes, the form sends the ids of the
    payment intent, of the plan and of the scheduled payment to the server,
    before it shows the success. *)
Lemma handleSubmit_posts_confirmation planId paymentId intent requestError :
  ApiRequest "POST" "/api/stripe/confirm-payment"
    (mkConfirmPaymentBody intent planId paymentId)
  ∈ fst (handleSubmit planId paymentId true (SubmitResolved None)
           (ConfirmIntent intent "succeeded") requestError).
Proof.
  unfold handleSubmit. destruct requestError as [[|message]|]; cbn;
    rewrite !elem_of_cons; right; right; right; by left.
Qed.

Local Ltac absent :=
  let H := fresh in
  intros H;
  repeat (apply elem_of_cons in H as [H|H]; [discriminate H|]);
  by apply elem_of_nil in H.

(** X17.  The form shows the success only when that request is answered without
    an error. *)
Lemma handleSubmit_shows_success planId paymentId ready submit confirm
    requestError :
  SetPaymentStatus succeeded
    ∈ fst (handleSubmit planId paymentId ready submit confirm requestError) ->
  requestError = None
  /\ exists intent, confirm = ConfirmIntent intent "succeeded".
Proof.
  unfold handleSubmit. destruct ready; cbn; [|absent].
  destruct submit as [err|[message|]]; cbn; [absent | absent |].
  destruct confirm as [[|message]|message|intent status|]; cbn;
    [absent ..| |absent].
  destruct (String.eqb_spec status "succeeded") as [->|Hne].
  - destruct requestError as [[|message]|]; cbn; [absent | absent |].
    intros _. split; [done|]. by eexists.
  - destruct (String.eqb status "requires_action"); cbn; absent.
Qed.

End CheckoutFacts.

(** * More about the handlers, for every storage *)

Section HandlerExtras.

Context {DB : Type} `{storage : IStorage DB}.

Variable Number : string -> JsNumber.

Variable webhooks_constructEvent :
  Client -> Z -> list Byte.byte -> string -> string -> option Event.

Abbreviation constructStripeEvent' := (constructStripeEvent webhooks_constructEvent).
Abbreviation processWebhook' := (processWebhook Number webhooks_constructEvent).

(** For a verified event the handler makes the calls of [storageCalls], one
    after the other, in the state that the adapter left. *)
Lemma processWebhook_issueAll bytes signature (w : World DB) ev :
  fst (constructStripeEvent' bytes signature w) = inr ev ->
  processWebhook' (Buffer bytes) signature w
  = issueAll (storageCalls Number (clock w) ev)
      (snd (constructStripeEvent' bytes signature w)).
Proof.
  intros Hev.
  pose proof (constructStripeEvent_frame webhooks_constructEvent
                bytes signature w) as (_ & Hclock & _).
  unfold processWebhook, storageCalls, metadataOf, mbind, M_bind at 1.
  destruct (constructStripeEvent' bytes signature w) as [[e|ev'] w1];
    simplify_eq/=.
  rewrite <- Hclock.
  destruct (String.eqb (ev_type ev) "payment_intent.succeeded").
  - destruct (truthyString _) as [userId|]; [|done].
    destruct (truthyNumber (numberField Number _ "paymentId")) as [paymentId|];
      destruct (truthyNumber (numberField Number _ "planId")) as [planId|];
      cbv [mbind M_bind mret M_ret newDate issueAll issue app
           storage_updateScheduledPayment storage_createTransaction];
      repeat case_match; simplify_eq; done.
  - destruct (String.eqb (ev_type ev) "payment_intent.payment_failed");
      [|done].
    destruct (truthyString _) as [userId|]; [|done].
    destruct (truthyNumber _) as [paymentId|]; [|done].
    cbv [mbind M_bind mret M_ret issueAll issue
         storage_updateScheduledPayment].
    repeat case_match; simplify_eq; done.
Qed.

Lemma issue_frame c (w : World DB) :
  journal (snd (issue c w)) = journal w ++ [c]
  /\ env (snd (issue c w)) = env w
  /\ clock (snd (issue c w)) = clock w
  /\ stripe (snd (issue c w)) = stripe w.
Proof.
  destruct c as [id userId p | userId t]; cbn;
    unfold storage_updateScheduledPayment, storage_createTransaction;
    by case_match.
Qed.

(** The calls that are made are the first ones of the list; all of them
    when the run returns. *)
Lemma issueAll_journal calls (w : World DB) :
  exists issued rest,
    calls = issued ++ rest
    /\ journal (snd (issueAll calls w)) = journal w ++ issued
    /\ (fst (issueAll calls w) = inr tt -> rest = []).
Proof.
  revert w. induction calls as [|c calls IH]; intros w.
  { exists [], []. cbn. by rewrite app_nil_r. }
  destruct (issue_frame c w) as (Hj & _).
  cbn [issueAll]. unfold mbind, M_bind.
  destruct (issue c w) as [[e|[]] w1]; cbn in Hj.
  - exists [c], calls. cbn. by rewrite Hj.
  - destruct (IH w1) as (issued & rest & -> & Hj' & Hret).
    exists (c :: issued), rest. split; [done|].
    split; [|done]. by rewrite Hj', Hj, <- app_assoc.
Qed.

Lemma storageCalls_length now ev :
  (length (storageCalls Number now ev) <= 2)%nat
  /\ (length (List.filter isCreateTransaction (storageCalls Number now ev))
       <= 1)%nat.
Proof.
  unfold storageCalls.
  repeat case_match; cbn; split; lia.
Qed.

Lemma storageCalls_user now ev :
  Forall (fun c => truthyString (metadataOf ev !! "userId") = Some (callUserId c))
    (storageCalls Number now ev).
Proof.
  unfold storageCalls.
  repeat case_match; repeat constructor; done.
Qed.

(** What the handler has issued: nothing when it could not verify the
    event, and the first calls of [storageCalls] when it could. *)
Lemma processWebhook_issued payload signature (w : World DB) :
  exists issued,
    journal (snd (processWebhook' payload signature w)) = journal w ++ issued
    /\ (issued = []
        \/ exists bytes ev rest,
             payload = Buffer bytes
             /\ fst (constructStripeEvent' bytes signature w) = inr ev
             /\ storageCalls Number (clock w) ev = issued ++ rest
             /\ (fst (processWebhook' payload signature w) = inr tt ->
                 rest = [])).
Proof.
  destruct payload as [bytes|json].
  2: { exists []. cbn. rewrite app_nil_r. by split; [|left]. }
  pose proof (constructStripeEvent_frame webhooks_constructEvent
                bytes signature w) as (_ & _ & _ & _ & Hj).
  cbn in Hj.
  destruct (fst (constructStripeEvent' bytes signature w)) as [e|ev] eqn:Hev.
  - exists []. rewrite (processWebhook_throws _ _ _ _ _ _ Hev). cbn.
    rewrite app_nil_r. by split; [|left].
  - rewrite (processWebhook_issueAll _ _ _ _ Hev).
    destruct (issueAll_journal (storageCalls Number (clock w) ev)
                (snd (constructStripeEvent' bytes signature w)))
      as (issued & rest & Hcalls & Hj' & Hret).
    exists issued. rewrite Hj', Hj. split; [done|].
    right. by exists bytes, ev, rest.
Qed.

(** X1.  Whatever it is given, [processWebhook] makes at most two storage calls,
    of which at most one creates a transaction, and it adds them after the
    calls made before. *)
Theorem processWebhook_calls_bounded payload signature (w : World DB) :
  exists issued,
    journal (snd (processWebhook' payload signature w)) = journal w ++ issued
    /\ (length issued <= 2)%nat
    /\ (length (List.filter isCreateTransaction issued) <= 1)%nat.
Proof.
  destruct (processWebhook_issued payload signature w)
    as (issued & Hj & [-> | (bytes & ev & rest & _ & _ & Hcalls & _)]).
  { exists []. cbn. repeat split; [done|lia..]. }
  exists issued. split; [done|].
  destruct (storageCalls_length (clock w) ev) as [Hlen Hcreate].
  rewrite Hcalls in Hlen, Hcreate.
  rewrite List.filter_app in Hcreate. rewrite !length_app in *. lia.
Qed.

(** X2.  Every storage call that [processWebhook] makes for a verified event is
    made in the name of the user of the event's metadata. *)
Theorem processWebhook_calls_event_user bytes signature (w : World DB) ev :
  fst (constructStripeEvent' bytes signature w) = inr ev ->
  exists issued,
    journal (snd (processWebhook' (Buffer bytes) signature w))
    = journal w ++ issued
    /\ Forall
         (fun c =>
            truthyString (metadataOf ev !! "userId") = Some (callUserId c))
         issued.
Proof.
  intros Hev.
  destruct (processWebhook_issued (Buffer bytes) signature w)
    as (issued & Hj & [-> | (bytes' & ev' & rest & Hb & Hev' & Hcalls & _)]).
  { exists []. by split. }
  injection Hb as <-. rewrite Hev in Hev'. injection Hev' as <-.
  exists issued. split; [done|].
  pose proof (storageCalls_user (clock w) ev) as Hall.
  rewrite Hcalls in Hall. by apply Forall_app in Hall as [? _].
Qed.

Lemma storageCalls_fit now ev :
  Forall (callFitsEvent Number now ev) (storageCalls Number now ev).
Proof.
  unfold storageCalls.
  destruct (String.eqb_spec (ev_type ev) "payment_intent.succeeded") as [Hs|Hs].
  - destruct (truthyString _) as [userId|]; [|constructor].
    destruct (truthyNumber (numberField Number _ "paymentId")) as [paymentId|]
      eqn:Hp;
      destruct (truthyNumber (numberField Number _ "planId")) as [planId|]
        eqn:Hpl;
      cbn [app]; repeat (constructor 2); try constructor 1;
      cbn; rewrite ?Hp, ?Hpl; try tauto.
  - destruct (String.eqb_spec (ev_type ev) "payment_intent.payment_failed")
      as [Hf|Hf]; [|constructor].
    destruct (truthyString _) as [userId|]; [|constructor].
    destruct (truthyNumber _) as [paymentId|] eqn:Hp; [|constructor].
    constructor 2; [|constructor 1].
    cbn. split; [done|]. by right.
Qed.

(** X3.  Every storage call that [processWebhook] makes for a verified event fits
    the event: it marks a scheduled payment completed only for a
    payment-succeeded event and failed only for a payment-failed event, and
    it creates a transaction only for a payment-succeeded event. *)
Theorem processWebhook_calls_fit_event bytes signature (w : World DB) ev :
  fst (constructStripeEvent' bytes signature w) = inr ev ->
  exists issued,
    journal (snd (processWebhook' (Buffer bytes) signature w))
    = journal w ++ issued
    /\ Forall (callFitsEvent Number (clock w) ev) issued.
Proof.
  intros Hev.
  destruct (processWebhook_issued (Buffer bytes) signature w)
    as (issued & Hj & [-> | (bytes' & ev' & rest & Hb & Hev' & Hcalls & _)]).
  { exists []. by split. }
  injection Hb as <-. rewrite Hev in Hev'. injection Hev' as <-.
  exists issued. split; [done|].
  pose proof (storageCalls_fit (clock w) ev) as Hall.
  rewrite Hcalls in Hall. by apply Forall_app in Hall as [? _].
Qed.

(** X4.  When the storage rejects the update of the scheduled payment, the
    handler throws the storage's error and stops there: the database is the
    one it found, and no transaction is created, whether or not the
    metadata names a plan. *)
Theorem processWebhook_update_rejected
    bytes signature (w : World DB) ev userId paymentId e :
  fst (constructStripeEvent' bytes signature w) = inr ev ->
  ev_type ev = "payment_intent.succeeded" ->
  truthyString (metadataOf ev !! "userId") = Some userId ->
  truthyNumber (numberField Number (metadataOf ev) "paymentId")
  = Some paymentId ->
  updateScheduledPayment paymentId userId
    (mkPatch (Some completed) (Some (clock w))) (db w) = inl e ->
  fst (processWebhook' (Buffer bytes) signature w) = inl e
  /\ db (snd (processWebhook' (Buffer bytes) signature w)) = db w
  /\ journal (snd (processWebhook' (Buffer bytes) signature w))
     = journal w
       ++ [UpdateScheduledPayment paymentId userId
             (mkPatch (Some completed) (Some (clock w)))].
Proof.
  intros Hev Ht Hu Hp Hrej.
  pose proof (constructStripeEvent_frame webhooks_constructEvent
                bytes signature w) as (_ & _ & _ & Hdb & Hj).
  cbn in Hdb, Hj.
  rewrite (processWebhook_issueAll _ _ _ _ Hev).
  unfold storageCalls. rewrite Hu, Hp, Ht. cbn [String.eqb Ascii.eqb].
  destruct (truthyNumber (numberField Number _ "planId"));
    cbn; unfold mbind, M_bind, storage_updateScheduledPayment;
    rewrite Hdb, Hrej; cbn; by rewrite Hdb, Hj.
Qed.

(** X5.  When the update of the scheduled payment is accepted and the storage
    then rejects the creation of the transaction, the handler throws the
    storage's error and the update stays: nothing is rolled back. *)
Theorem processWebhook_create_rejected
    bytes signature (w : World DB) ev userId paymentId planId d e :
  fst (constructStripeEvent' bytes signature w) = inr ev ->
  ev_type ev = "payment_intent.succeeded" ->
  truthyString (metadataOf ev !! "userId") = Some userId ->
  truthyNumber (numberField Number (metadataOf ev) "paymentId")
  = Some paymentId ->
  truthyNumber (numberField Number (metadataOf ev) "planId") = Some planId ->
  updateScheduledPayment paymentId userId
    (mkPatch (Some completed) (Some (clock w))) (db w) = inr d ->
  createTransaction userId
    (mkInsertTransaction planId "payment" (pi_amount (ev_data_object ev))
       (pi_id (ev_data_object ev)) "completed"
       ("Payment for scheduled payment #" +:+ pretty paymentId)) d = inl e ->
  fst (processWebhook' (Buffer bytes) signature w) = inl e
  /\ db (snd (processWebhook' (Buffer bytes) signature w)) = d.
Proof.
  intros Hev Ht Hu Hp Hpl Hupd Hrej.
  pose proof (constructStripeEvent_frame webhooks_constructEvent
                bytes signature w) as (_ & _ & _ & Hdb & Hj).
  cbn in Hdb, Hj.
  rewrite (processWebhook_issueAll _ _ _ _ Hev).
  unfold storageCalls. rewrite Hu, Hp, Hpl, Ht. cbn [String.eqb Ascii.eqb].
  cbn. unfold mbind, M_bind, storage_updateScheduledPayment.
  rewrite Hdb, Hupd. cbn. unfold storage_createTransaction. cbn.
  by rewrite Hrej.
Qed.

(** X6.  A scheduled-payment id in the metadata that converts to [NaN] or to 0
    is treated as absent: for a payment-succeeded event with a user and a
    plan, the one storage call is the creation of the transaction, with the
    description of a payment that names no scheduled payment. *)
Theorem processWebhook_unusable_payment_id
    bytes signature (w : World DB) ev userId planId text :
  fst (constructStripeEvent' bytes signature w) = inr ev ->
  ev_type ev = "payment_intent.succeeded" ->
  truthyString (metadataOf ev !! "userId") = Some userId ->
  truthyNumber (numberField Number (metadataOf ev) "planId") = Some planId ->
  metadataOf ev !! "paymentId" = Some text ->
  Number text = NaN \/ Number text = Num 0 ->
  journal (snd (processWebhook' (Buffer bytes) signature w))
  = journal w
    ++ [CreateTransaction userId
          (mkInsertTransaction planId "payment" (pi_amount (ev_data_object ev))
             (pi_id (ev_data_object ev)) "completed" "Credit plan payment")].
Proof.
  intros Hev Ht Hu Hpl Htext Hnum.
  assert (truthyNumber (numberField Number (metadataOf ev) "paymentId") = None)
    as Hp.
  { unfold numberField. rewrite Htext. cbn.
    destruct (String.eqb text ""); [done|].
    by destruct Hnum as [-> | ->]. }
  pose proof (constructStripeEvent_frame webhooks_constructEvent
                bytes signature w) as (_ & _ & _ & _ & Hj).
  cbn in Hj.
  rewrite (processWebhook_issueAll _ _ _ _ Hev).
  unfold storageCalls. rewrite Hu, Hp, Hpl, Ht, String.eqb_refl.
  cbv [app issueAll issue mbind M_bind mret M_ret storage_createTransaction].
  destruct (createTransaction userId _
              (db (snd (constructStripeEvent' bytes signature w))));
    cbn; by rewrite Hj.
Qed.

(** X7.  A payment-succeeded event that names a scheduled payment and no plan
    leads to the update only: the scheduled payment is marked completed and
    no transaction is created for it. *)
Theorem processWebhook_no_plan_no_transaction
    bytes signature (w : World DB) ev userId paymentId :
  fst (constructStripeEvent' bytes signature w) = inr ev ->
  ev_type ev = "payment_intent.succeeded" ->
  truthyString (metadataOf ev !! "userId") = Some userId ->
  truthyNumber (numberField Number (metadataOf ev) "paymentId")
  = Some paymentId ->
  truthyNumber (numberField Number (metadataOf ev) "planId") = None ->
  journal (snd (processWebhook' (Buffer bytes) signature w))
  = journal w
    ++ [UpdateScheduledPayment paymentId userId
          (mkPatch (Some completed) (Some (clock w)))].
Proof.
  intros Hev Ht Hu Hp Hpl.
  pose proof (constructStripeEvent_frame webhooks_constructEvent
                bytes signature w) as (_ & _ & _ & _ & Hj).
  cbn in Hj.
  rewrite (processWebhook_issueAll _ _ _ _ Hev).
  unfold storageCalls. rewrite Hu, Hp, Hpl, Ht, String.eqb_refl.
  cbv [app issueAll issue mbind M_bind mret M_ret
       storage_updateScheduledPayment].
  destruct (updateScheduledPayment paymentId userId _
              (db (snd (constructStripeEvent' bytes signature w))));
    cbn; by rewrite Hj.
Qed.

Lemma issueAll_accepted calls (w : World DB) :
  (forall id userId p d, exists d', updateScheduledPayment id userId p d = inr d') ->
  (forall userId t d, exists d', createTransaction userId t d = inr d') ->
  fst (issueAll calls w) = inr tt.
Proof.
  intros Hupd Hcre. revert w.
  induction calls as [|c calls IH]; intros w; [done|].
  cbn [issueAll]. unfold mbind, M_bind.
  destruct c as [id userId p | userId t]; cbn.
  - unfold storage_updateScheduledPayment.
    destruct (Hupd id userId p (db w)) as [d' ->]. apply IH.
  - unfold storage_createTransaction.
    destruct (Hcre userId t (db w)) as [d' ->]. apply IH.
Qed.

(** X8.  With a storage of which neither method rejects, [processWebhook] on a
    raw body returns exactly when the adapter returns an event: it throws
    for no other reason than a failed verification. *)
Theorem processWebhook_returns_iff_verified bytes signature (w : World DB) :
  (forall id userId p d, exists d', updateScheduledPayment id userId p d = inr d') ->
  (forall userId t d, exists d', createTransaction userId t d = inr d') ->
  fst (processWebhook' (Buffer bytes) signature w) = inr tt
  <-> exists ev, fst (constructStripeEvent' bytes signature w) = inr ev.
Proof.
  intros Hupd Hcre.
  destruct (fst (constructStripeEvent' bytes signature w)) as [e|ev] eqn:Hev.
  - rewrite (processWebhook_throws _ _ _ _ _ _ Hev). cbn.
    split; [done|]. by intros [ev ?].
  - rewrite (processWebhook_issueAll _ _ _ _ Hev).
    split; [by exists ev|]. intros _. by apply issueAll_accepted.
Qed.

(** The ledger rows that the calls of a payment-succeeded event with a user
    and a plan ask for: one, and the same at every time of processing. *)
Lemma storageCalls_creates now ev userId planId :
  ev_type ev = "payment_intent.succeeded" ->
  truthyString (metadataOf ev !! "userId") = Some userId ->
  truthyNumber (numberField Number (metadataOf ev) "planId") = Some planId ->
  exists description,
    List.filter isCreateTransaction (storageCalls Number now ev)
    = [CreateTransaction userId
         (mkInsertTransaction planId "payment" (pi_amount (ev_data_object ev))
            (pi_id (ev_data_object ev)) "completed" description)]
    /\ description
       = match truthyNumber (numberField Number (metadataOf ev) "paymentId")
         with
         | Some paymentId =>
           "Payment for scheduled payment #" +:+ pretty paymentId
         | None => "Credit plan payment"
         end.
Proof.
  intros Ht Hu Hpl. unfold storageCalls.
  rewrite Ht, String.eqb_refl, Hu, Hpl.
  destruct (truthyNumber (numberField Number _ "paymentId")); cbn;
    by eexists.
Qed.

(** X23.  The handler looks nothing up before it asks for a ledger row.
    When the same verified payment-succeeded event with a user and a plan
    is processed a second time, at any later time and in the state that
    the first run left, and both runs return, each run calls
    [createTransaction] once: the journal has two such calls more, with
    the same user, plan, amount, description and external reference,
    whatever the storage did with the first. *)
Theorem processWebhook_replay_creates_again
    bytes signature (w : World DB) later ev userId planId :
  let w1 := snd (processWebhook' (Buffer bytes) signature w) in
  let w2 :=
    snd (processWebhook' (Buffer bytes) signature (set_clock later w1)) in
  fst (constructStripeEvent' bytes signature w) = inr ev ->
  fst (constructStripeEvent' bytes signature (set_clock later w1)) = inr ev ->
  ev_type ev = "payment_intent.succeeded" ->
  truthyString (metadataOf ev !! "userId") = Some userId ->
  truthyNumber (numberField Number (metadataOf ev) "planId") = Some planId ->
  fst (processWebhook' (Buffer bytes) signature w) = inr tt ->
  fst (processWebhook' (Buffer bytes) signature (set_clock later w1))
  = inr tt ->
  exists t,
    List.filter isCreateTransaction (journal w2)
    = List.filter isCreateTransaction (journal w)
      ++ [CreateTransaction userId t; CreateTransaction userId t]
    /\ ins_planId t = planId
    /\ ins_type t = "payment"
    /\ ins_amount t = pi_amount (ev_data_object ev)
    /\ ins_externalId t = pi_id (ev_data_object ev).
Proof.
  intros w1 w2 Hev1 Hev2 Ht Hu Hpl Hret1 Hret2.
  assert (forall w0 : World DB,
            fst (constructStripeEvent' bytes signature w0) = inr ev ->
            fst (processWebhook' (Buffer bytes) signature w0) = inr tt ->
            journal (snd (processWebhook' (Buffer bytes) signature w0))
            = journal w0 ++ storageCalls Number (clock w0) ev) as Hrun.
  { intros w0 Hev Hret.
    destruct (processWebhook_issued (Buffer bytes) signature w0)
      as (issued & Hj & [-> | (bytes' & ev' & rest & [= <-] & Hev' & Hcalls
                                 & Hrest)]).
    - rewrite (processWebhook_issueAll _ _ _ _ Hev) in Hj, Hret.
      destruct (issueAll_journal (storageCalls Number (clock w0) ev)
                  (snd (constructStripeEvent' bytes signature w0)))
        as (issued & rest & Hcalls & Hj' & Hrest).
      rewrite (Hrest Hret), app_nil_r in Hcalls. subst issued.
      rewrite (processWebhook_issueAll _ _ _ _ Hev), Hj'.
      pose proof (constructStripeEvent_frame webhooks_constructEvent
                    bytes signature w0) as (_ & _ & _ & _ & Hj0).
      cbn in Hj0. by rewrite Hj0.
    - rewrite Hev in Hev'. simplify_eq.
      rewrite (Hrest Hret), app_nil_r in Hcalls. by rewrite Hj, Hcalls. }
  destruct (storageCalls_creates (clock w) ev userId planId Ht Hu Hpl)
    as (description & Hc1 & Hd).
  destruct (storageCalls_creates later ev userId planId Ht Hu Hpl)
    as (description' & Hc2 & Hd').
  rewrite <- Hd in Hd'. subst description'.
  exists (mkInsertTransaction planId "payment" (pi_amount (ev_data_object ev))
            (pi_id (ev_data_object ev)) "completed" description).
  split; [|done].
  unfold w2. rewrite (Hrun _ Hev2 Hret2). cbn [journal set_clock clock].
  unfold w1. rewrite (Hrun _ Hev1 Hret1).
  by rewrite !List.filter_app, Hc1, Hc2, <- app_assoc.
Qed.

(** ** The adapter *)

(** X9.  Once [getStripeClient] has returned a client, every later call returns
    the same client and changes nothing, whatever the environment has
    become: the client is built once. *)
Theorem getStripeClient_cached (w w1 : World DB) client env' :
  getStripeClient w = (inr client, w1) ->
  getStripeClient (set_env env' w1) = (inr client, set_env env' w1).
Proof.
  unfold getStripeClient. intros H.
  destruct (stripe w) as [c|] eqn:Hc.
  - simplify_eq. cbn. by rewrite Hc.
  - destruct (truthyString (STRIPE_SECRET_KEY (env w))); by simplify_eq.
Qed.

(** X10.  [getStripeClient] throws exactly when no client has been built and
    STRIPE_SECRET_KEY is not set or is empty; it then leaves the state as it
    was. *)
Theorem getStripeClient_throws_iff (w : World DB) :
  (exists e, fst (getStripeClient w) = inl e)
  <-> stripe w = None
      /\ (STRIPE_SECRET_KEY (env w) = None
          \/ STRIPE_SECRET_KEY (env w) = Some "").
Proof.
  unfold getStripeClient.
  destruct (stripe w) as [c|]; cbn.
  { split; [by intros [e ?]|by intros [? _]]. }
  destruct (STRIPE_SECRET_KEY (env w)) as [key|]; cbn.
  - destruct (String.eqb_spec key "") as [->|Hne]; cbn.
    + split; [by auto|by eexists].
    + split; [by intros [e ?]|]. intros [_ [?|?]]; simplify_eq.
  - split; [by auto|by eexists].
Qed.

(** X11.  The adapter returns an event only when the webhook secret is set and not
    empty and the library has accepted the body and the signature under
    that secret. *)
Theorem constructStripeEvent_sound bytes signature (w : World DB) ev :
  fst (constructStripeEvent' bytes signature w) = inr ev ->
  exists secret client,
    STRIPE_WEBHOOK_SECRET (env w) = Some secret /\ secret <> ""
    /\ clientOf w = Some client
    /\ webhooks_constructEvent client (clock w) bytes signature secret
       = Some ev.
Proof.
  rewrite constructStripeEvent_answer.
  destruct (STRIPE_WEBHOOK_SECRET (env w)) as [secret|]; cbn; [|done].
  destruct (String.eqb_spec secret "") as [->|Hne]; [done|].
  destruct (clientOf w) as [client|]; [|done].
  destruct (webhooks_constructEvent _ _ _ _ _) as [ev'|] eqn:Hlib; [|done].
  intros [= ->]. by exists secret, client.
Qed.

(** X12.  The errors of the adapter, in the order in which it meets them.
    It throws for a missing webhook secret exactly when the secret is
    missing or empty, whatever the secret key is; for a missing secret key
    exactly when the webhook secret is present, no client is cached and
    the key is missing or empty; and for a refused signature exactly when
    the secret and a client are there and the library refuses the body.
    The first two errors leave the state untouched, with no client
    built. *)
Theorem constructStripeEvent_errors bytes signature (w : World DB) e :
  (fst (constructStripeEvent' bytes signature w) = inl e <->
   (e = MissingWebhookSecret
    /\ truthyString (STRIPE_WEBHOOK_SECRET (env w)) = None)
   \/ (e = MissingSecretKey
       /\ (exists secret,
             truthyString (STRIPE_WEBHOOK_SECRET (env w)) = Some secret)
       /\ stripe w = None
       /\ truthyString (STRIPE_SECRET_KEY (env w)) = None)
   \/ (e = SignatureVerificationFailed
       /\ exists secret client,
            truthyString (STRIPE_WEBHOOK_SECRET (env w)) = Some secret
            /\ clientOf w = Some client
            /\ webhooks_constructEvent client (clock w) bytes signature secret
               = None))
  /\ (fst (constructStripeEvent' bytes signature w) = inl e ->
      e <> SignatureVerificationFailed ->
      snd (constructStripeEvent' bytes signature w) = w).
Proof.
  unfold constructStripeEvent, mbind, M_bind, getStripeWebhookSecret,
    getStripeClient, client_webhooks_constructEvent, clientOf.
  destruct (truthyString (STRIPE_WEBHOOK_SECRET (env w))) as [secret|]; cbn;
    [destruct (stripe w) as [client|] eqn:Hc; cbn;
       [|destruct (truthyString (STRIPE_SECRET_KEY (env w))) as [key|]; cbn];
       try (destruct (webhooks_constructEvent _ _ _ _ _) as [ev|] eqn:Hlib;
            cbn)|].
  all: split; [split|].
  all: try (intros [(? & ?) | [(? & (? & ?) & ? & ?) | (? & ? & ? & ? & ? & ?)]];
            simplify_eq; congruence).
  all: try (intros [= <-]; try done).
  all: try done.
  - right. right. split; [done|]. by exists secret, client.
  - right. right. split; [done|]. by eexists _, _.
  - right. left. repeat split; try done. by exists secret.
  - by left.
Qed.

End HandlerExtras.

(** * The plan cards and the plan form *)

Section PlanViewFacts.

Import CreditPlans CreditPlansView.

Variable getTime : CalendarDate -> Z.

Abbreviation dueTime' := (dueTime getTime).
Abbreviation sortByDue' := (sortByDue getTime).
Abbreviation insertByDue' := (insertByDue getTime).

Lemma insertByDue_perm p l : insertByDue' p l ≡ₚ p :: l.
Proof.
  induction l as [|q l IH]; cbn; [done|].
  destruct (dueTime' p <=? dueTime' q); [done|].
  by rewrite IH, Permutation_swap.
Qed.

Lemma sortByDue_perm l : sortByDue' l ≡ₚ l.
Proof.
  induction l as [|p l IH]; cbn; [done|].
  by rewrite insertByDue_perm, IH.
Qed.

Lemma insertByDue_sorted p l :
  StronglySorted (fun a b => dueTime' a <= dueTime' b) l ->
  StronglySorted (fun a b => dueTime' a <= dueTime' b) (insertByDue' p l).
Proof.
  induction 1 as [|q l Hsorted IH Hall]; cbn.
  { by repeat constructor. }
  destruct (Z.leb_spec (dueTime' p) (dueTime' q)) as [Hle|Hgt].
  - constructor; [by constructor|].
    constructor; [done|].
    eapply Forall_impl; [exact Hall|]. cbn. intros r Hr. lia.
  - constructor; [done|].
    rewrite insertByDue_perm. constructor; [lia|done].
Qed.

(** The schedule of the details dialog: the sort keeps every payment, once,
    and puts the payments in the order of their due times. *)
Theorem sortByDue_sorted l :
  sortByDue' l ≡ₚ l
  /\ StronglySorted (fun a b => dueTime' a <= dueTime' b) (sortByDue' l).
Proof.
  split; [apply sortByDue_perm|].
  induction l as [|p l IH]; cbn; [constructor|].
  by apply insertByDue_sorted.
Qed.

Lemma head_insertByDue p l :
  head (insertByDue' p l)
  = match head l with
    | Some q => if dueTime' p <=? dueTime' q then Some p else Some q
    | None => Some p
    end.
Proof.
  destruct l as [|q l]; cbn; [done|].
  by destruct (dueTime' p <=? dueTime' q).
Qed.

(** The first element after the sort is the first, in the order of the
    list, of the elements that are due earliest. *)
Lemma head_sortByDue l p :
  head (sortByDue' l) = Some p ->
  exists before after,
    l = before ++ p :: after
    /\ (forall q, q ∈ before -> dueTime' p < dueTime' q)
    /\ (forall q, q ∈ after -> dueTime' p <= dueTime' q).
Proof.
  revert p. induction l as [|x l IH]; intros p; [done|].
  change (sortByDue' (x :: l)) with (insertByDue' x (sortByDue' l)).
  rewrite head_insertByDue.
  destruct (head (sortByDue' l)) as [h|] eqn:Hh.
  - destruct (IH h eq_refl) as (before & after & -> & Hb & Ha).
    destruct (Z.leb_spec (dueTime' x) (dueTime' h)) as [Hle|Hgt];
      intros [= <-].
    + exists [], (before ++ h :: after). split; [done|].
      split; [by intros q ?%elem_of_nil|].
      intros q [Hq|Hq]%elem_of_app.
      * specialize (Hb q Hq). lia.
      * apply elem_of_cons in Hq as [->|Hq]; [done|].
        specialize (Ha q Hq). lia.
    + exists (x :: before), after. split; [done|]. split; [|done].
      intros q [->|Hq]%elem_of_cons; [lia|by apply Hb].
  - intros [= <-]. apply head_None in Hh.
    assert (l = []) as ->.
    { apply Permutation_nil_r. by rewrite <- Hh, sortByDue_perm. }
    exists [], []. split; [done|]. split; by intros q ?%elem_of_nil.
Qed.

(** X14.  The payment behind the Pay button of a plan card is a scheduled payment
    of that plan, and no scheduled payment of the plan is due before it. *)
Theorem nextPayment_earliest payments planId p :
  nextPayment getTime payments planId = Some p ->
  exists ps,
    payments = Some ps /\ p ∈ ps
    /\ sp_planId p = planId /\ sp_status p = scheduled
    /\ forall q,
         q ∈ ps -> sp_planId q = planId -> sp_status q = scheduled ->
         dueTime' p <= dueTime' q.
Proof.
  unfold nextPayment, getPlanPayments. intros Hhead.
  destruct payments as [ps|]; [|done].
  destruct (head_sortByDue _ _ Hhead) as (before & after & Hl & Hb & Ha).
  assert (forall q, q ∈ before ++ p :: after <->
                    sp_status q = scheduled /\ sp_planId q = planId /\ q ∈ ps)
    as Hmem.
  { intros q. by rewrite <- Hl, !list_elem_of_filter. }
  exists ps. split; [done|].
  destruct (proj1 (Hmem p)) as (Hst & Hplan & Hin).
  { rewrite elem_of_app, elem_of_cons. auto. }
  repeat split; try done.
  intros q Hq Hqplan Hqst.
  assert (q ∈ before ++ p :: after) as Hq' by (by apply Hmem).
  apply elem_of_app in Hq' as [Hq'|Hq'].
  - specialize (Hb q Hq'). lia.
  - apply elem_of_cons in Hq' as [->|Hq']; [done|by apply Ha].
Qed.

(** X15.  Payments of the plan that are scheduled and due at the same earliest
    time: the Pay button takes the one that comes first in the list. *)
Theorem nextPayment_first_of_ties payments planId p :
  nextPayment getTime payments planId = Some p ->
  exists before after,
    filter (fun q => sp_status q = scheduled)
      (getPlanPayments payments planId) = before ++ p :: after
    /\ forall q, q ∈ before -> dueTime' p < dueTime' q.
Proof.
  intros Hhead.
  destruct (head_sortByDue _ _ Hhead) as (before & after & Hl & Hb & _).
  by exists before, after.
Qed.

(** X16.  A plan card has no Pay button exactly when the plan has no payment that
    is scheduled. *)
Theorem nextPayment_none payments planId :
  nextPayment getTime payments planId = None
  <-> forall ps q,
        payments = Some ps -> q ∈ ps -> sp_planId q = planId ->
        sp_status q <> scheduled.
Proof.
  unfold nextPayment, getPlanPayments. rewrite head_None. split.
  - intros Hnil ps q -> Hq Hplan Hst.
    assert (q ∈ sortByDue' (filter (fun p => sp_status p = scheduled)
                              (filter (fun p => sp_planId p = planId) ps)))
      as Hin by (by rewrite sortByDue_perm, !list_elem_of_filter).
    rewrite Hnil in Hin. by apply elem_of_nil in Hin.
  - intros Hnone. destruct payments as [ps|]; [|done].
    assert (filter (fun p => sp_status p = scheduled)
              (filter (fun p => sp_planId p = planId) ps) = []) as ->; [|done].
    apply elem_of_nil_inv. intros q (Hst & Hq)%list_elem_of_filter.
    apply list_elem_of_filter in Hq as [Hplan Hq].
    by apply (Hnone ps q).
Qed.

(** The number of completed payments shown on a card is at most the number
    of payments of the plan. *)
Lemma completedPayments_le payments planId :
  (completedPayments payments planId
   <= length (getPlanPayments payments planId))%nat.
Proof. apply length_filter. Qed.

Variable parseDate : string -> option CalendarDate.

(** X13.  For every form that passes [createPlanSchema] with a total and a
    term that are integers below 2^53, the total is at least 100 and the
    term at most 60, and the body that [createMutation] posts keeps the
    total and the term of the form; its monthly payment is an integer, the
    ceiling of total over term, although it is computed on doubles: over
    the term it covers the total and exceeds it by less than one minor
    unit per month, and it is at least 2 and at most the total. *)
Theorem createMutation_covers_total data total term req :
  totalAmount data = Double.ofZ total ->
  termMonths data = Double.ofZ term ->
  0 < total < 2 ^ 53 -> 0 < term < 2 ^ 53 ->
  createPlanSchema data = true ->
  createMutation parseDate data = Some req ->
  100 <= total /\ term <= 60
  /\ req_totalAmount req = totalAmount data
  /\ req_termMonths req = termMonths data
  /\ exists monthly,
       req_monthlyPayment req = Double.ofZ monthly
       /\ Double.toZ (req_monthlyPayment req) = Some monthly
       /\ monthly = ceiling total term
       /\ total <= monthly * term < total + term
       /\ 2 <= monthly <= total.
Proof.
  intros Htotal Hterm Ha Hb Hschema Hreq.
  unfold createPlanSchema in Hschema.
  rewrite Htotal, Hterm, !andb_true_iff in Hschema.
  destruct Hschema as ((((_ & H100) & _) & H60) & _).
  rewrite leb_ofZ, Z.leb_le in H100, H60
    by (done || (change (2 ^ 53) with 9007199254740992; lia)).
  destruct (parseDate (startDate data)) as [start|] eqn:Hstart;
    [|by unfold createMutation in Hreq; rewrite Hstart in Hreq].
  rewrite (createMutation_integers parseDate data total term start) in Hreq
    by done.
  injection Hreq as <-. cbn.
  pose proof (ceiling_bounds total term ltac:(lia)) as Hceil.
  pose proof (ceiling_range total term ltac:(lia) ltac:(lia)) as Hrange.
  repeat split; [done ..|].
  exists (ceiling total term).
  split; [done|]. split; [apply toZ_ofZ; lia|].
  repeat split; nia.
Qed.

End PlanViewFacts.

(** * The checkout form, for every outcome *)

Section CheckoutExtras.

Import PaymentSheet CheckoutView.

(** X18.  The only request that [handleSubmit] sends is the confirmation to the
    server, with the id of the payment intent and the ids it was given, and
    it sends it only after Stripe has answered with the status succeeded. *)
Theorem handleSubmit_request_after_success
    planId paymentId ready submit confirm requestError e :
  e ∈ fst (handleSubmit planId paymentId ready submit confirm requestError) ->
  isRequest e = true ->
  ready = true /\ submit = SubmitResolved None
  /\ exists intent,
       confirm = ConfirmIntent intent "succeeded"
       /\ e = ApiRequest "POST" "/api/stripe/confirm-payment"
               (mkConfirmPaymentBody intent planId paymentId).
Proof.
  unfold handleSubmit. intros Hin Hreq.
  assert (forall l, e ∈ l -> Forall (fun x => isRequest x = false) l -> False)
    as Hno.
  { intros l Hl Hall. rewrite Forall_forall in Hall.
    apply Hall in Hl. congruence. }
  destruct ready; cbn in Hin; [|exfalso; apply (Hno _ Hin); by repeat constructor].
  destruct submit as [err|[message|]]; cbn in Hin;
    [exfalso; apply (Hno _ Hin); by repeat constructor ..|].
  destruct confirm as [[|message]|message|intent status|]; cbn in Hin;
    try (exfalso; apply (Hno _ Hin); by repeat constructor).
  destruct (String.eqb_spec status "succeeded") as [->|Hne].
  - repeat split. exists intent. split; [done|].
    destruct requestError as [[|message]|]; cbn in Hin;
      repeat (apply elem_of_cons in Hin as [->|Hin];
              [first [done | discriminate Hreq]|]);
      by apply elem_of_nil in Hin.
  - destruct (String.eqb status "requires_action"); cbn in Hin;
      exfalso; apply (Hno _ Hin); by repeat constructor.
Qed.

(** X19.  A run that finds Stripe loaded sets [isProcessing], and sets it
    back exactly when it returns: the flag goes to true once and then to
    false once on a run that returns, and stays true on a run that
    rejects.  A run rejects exactly when [elements.submit] rejects, which
    happens before the [try], or when the value that [confirmPayment] or
    the request to the server rejects with is [null] or [undefined], on
    which the [catch] block throws.  A run that finds Stripe not loaded
    does not touch the flag. *)
Theorem handleSubmit_processing_flags
    planId paymentId ready submit confirm requestError :
  processingFlags
    (fst (handleSubmit planId paymentId ready submit confirm requestError))
  = (if ready then
       match snd (handleSubmit planId paymentId ready submit confirm
                    requestError) with
       | Returns => [true; false]
       | Rejects => [true]
       end
     else [])
  /\ (snd (handleSubmit planId paymentId ready submit confirm requestError)
      = Rejects
      <-> ready = true
          /\ ((exists err, submit = SubmitRejected err)
              \/ (submit = SubmitResolved None
                  /\ (confirm = ConfirmThrew ThrownNullish
                      \/ (requestError = Some ThrownNullish
                          /\ exists intent,
                               confirm = ConfirmIntent intent "succeeded"))))).
Proof.
  unfold handleSubmit, processingFlags.
  destruct ready; [|cbn; split; [done|]; by intuition].
  destruct submit as [err|[message|]]; cbn.
  - split; [done|]. split; [|done]. intros _. split; [done|]. left.
    by exists err.
  - split; [done|]. split; [done|].
    by intros (_ & [(err & [=]) | ([=] & _)]).
  - destruct confirm as [[|message]|message|intent status|]; cbn.
    1: split; [done|]; split; [|done]; intros _; split; [done|]; right;
       split; [done|]; by left.
    1-2, 4: split; [done|]; split; [done|];
       by intros (_ & [(err & [=]) | (_ & [[=] | (_ & intent' & [=])])]).
    destruct (String.eqb_spec status "succeeded") as [->|Hne].
    + destruct requestError as [[|message]|]; cbn.
      * split; [done|]. split; [|done]. intros _. split; [done|]. right.
        split; [done|]. right. split; [done|]. by exists intent.
      * split; [done|]. split; [done|].
        by intros (_ & [(err & [=]) | (_ & [[=] | ([=] & _)])]).
      * split; [done|]. split; [done|].
        by intros (_ & [(err & [=]) | (_ & [[=] | ([=] & _)])]).
    + destruct (String.eqb status "requires_action"); cbn.
      all: split; [done|]; split; [done|].
      all: intros (_ & [(err & [=]) | (_ & [[=] | (_ & intent' & [= _ Hs])])]).
      all: by subst.
Qed.

(** X20.  The form is left showing processing exactly when Stripe is
    loaded and either [elements.submit] rejects, or the elements are
    accepted and [confirmPayment] answers with neither an error nor a
    payment intent, or the [catch] block meets [null] or [undefined]. *)
Theorem handleSubmit_left_processing
    planId paymentId ready submit confirm requestError :
  last (statusViews
          (fst (handleSubmit planId paymentId ready submit confirm
                  requestError)))
  = Some processing
  <-> ready = true
      /\ ((exists err, submit = SubmitRejected err)
          \/ (submit = SubmitResolved None
              /\ (confirm = ConfirmNothing
                  \/ confirm = ConfirmThrew ThrownNullish
                  \/ (requestError = Some ThrownNullish
                      /\ exists intent,
                           confirm = ConfirmIntent intent "succeeded")))).
Proof.
  unfold handleSubmit, statusViews.
  destruct ready; [|cbn; by intuition].
  destruct submit as [err|[message|]]; cbn.
  - split; [|done]. intros _. split; [done|]. left. by exists err.
  - split; [done|]. by intros (_ & [(err & [=]) | ([=] & _)]).
  - destruct confirm as [[|message]|message|intent status|]; cbn.
    + split; [|done]. intros _. split; [done|]. right. split; [done|].
      right. by left.
    + split; [done|].
      by intros (_ & [(err & [=]) | (_ & [[=] | [[=] | (_ & i & [=])]])]).
    + split; [done|].
      by intros (_ & [(err & [=]) | (_ & [[=] | [[=] | (_ & i & [=])]])]).
    + destruct (String.eqb_spec status "succeeded") as [->|Hne].
      * destruct requestError as [[|message]|]; cbn.
        -- split; [|done]. intros _. split; [done|]. right. split; [done|].
           right. right. split; [done|]. by exists intent.
        -- split; [done|].
           by intros (_ & [(err & [=]) | (_ & [[=] | [[=] | ([=] & _)]])]).
        -- split; [done|].
           by intros (_ & [(err & [=]) | (_ & [[=] | [[=] | ([=] & _)]])]).
      * destruct (String.eqb status "requires_action"); cbn.
        all: split; [done|].
        all: intros (_ & [(err & [=])
                         | (_ & [[=] | [[=] | (_ & i & [= _ Hs])]])]).
        all: by subst.
    + split; [|done]. intros _. split; [done|]. right. split; [done|].
      by left.
Qed.

End CheckoutExtras.

(** * The lists of the Tasks page *)

Section TaskFacts.

Import Tasks.

Lemma listed_flat tasks showCompleted :
  listed tasks showCompleted
  = pendingTasks tasks showCompleted
    ++ (if showCompleted then completedTasks tasks showCompleted else []).
Proof.
  unfold listed.
  destruct showCompleted; cbn [negb andb].
  - rewrite andb_false_r.
    by destruct (completedTasks tasks true).
  - rewrite andb_true_r.
    by destruct (pendingTasks tasks false).
Qed.

(** X21.  A task is on the page exactly when it is pending, or completed with
    completed tasks shown: a task of any other status is in neither list. *)
Theorem listed_iff tasks showCompleted t :
  t ∈ listed tasks showCompleted
  <-> exists ts,
        tasks = Some ts /\ t ∈ ts
        /\ (task_status t = "pending"
            \/ (showCompleted = true /\ task_status t = "completed")).
Proof.
  rewrite listed_flat.
  unfold pendingTasks, completedTasks, filteredTasks.
  destruct tasks as [ts|].
  2: { destruct showCompleted; cbn; split.
       1, 3: by intros ?%elem_of_nil.
       all: by intros (ts & ? & _). }
  rewrite elem_of_app, !list_elem_of_filter. split.
  - intros [(Hp & _ & Hin) | Hc].
    + exists ts. by auto.
    + destruct showCompleted; [|by apply elem_of_nil in Hc].
      apply list_elem_of_filter in Hc as (Hc & Hin).
      apply list_elem_of_filter in Hin as (_ & Hin).
      exists ts. by auto.
  - intros (ts' & [= <-] & Hin & [Hp | [-> Hc]]).
    + left. repeat split; [done| |done]. right. by rewrite Hp.
    + right. rewrite !list_elem_of_filter. by auto.
Qed.

(** X22.  Whether completed tasks are shown makes no difference to the list of
    pending tasks. *)
Theorem pendingTasks_whatever_shown tasks :
  pendingTasks tasks true = pendingTasks tasks false.
Proof.
  unfold pendingTasks, filteredTasks. destruct tasks as [ts|]; [|done].
  induction ts as [|t ts IH]; [done|].
  rewrite !(filter_cons _ t ts).
  destruct (decide (true = true \/ task_status t <> "completed")) as [_|Hn];
    [|by destruct Hn; left].
  destruct (decide (false = true \/ task_status t <> "completed"))
    as [_|Hn].
  - rewrite !filter_cons, IH. done.
  - rewrite filter_cons, IH.
    destruct (decide (task_status t = "pending")) as [Hp|_]; [|done].
    destruct Hn. right. by rewrite Hp.
Qed.

End TaskFacts.

(** * The further properties on the sample data *)

Section MoreRuns.

Import Fixture Sample.

Local Ltac run := vm_compute; reflexivity.

Lemma processWebhook_calls_event_user_witness :
  exists issued,
    journal (snd (processWebhook (DB := Store) decimalNumber Sample.verifier
                    (Buffer bodySucceeded) goodSignature world0))
    = journal world0 ++ issued
    /\ Forall (fun c => Some "u1" = Some (callUserId c)) issued.
Proof.
  destruct (processWebhook_calls_event_user (DB := Store) decimalNumber
              Sample.verifier bodySucceeded goodSignature world0 evSucceeded)
    as (issued & Hj & Hall); [run|].
  exists issued. split; [exact Hj|]. exact Hall.
Defined.

Lemma processWebhook_calls_fit_event_witness :
  exists issued,
    journal (snd (processWebhook (DB := Store) decimalNumber Sample.verifier
                    (Buffer bodyFailed) goodSignature world0))
    = journal world0 ++ issued
    /\ Forall (callFitsEvent decimalNumber 0 evFailed) issued.
Proof.
  apply (processWebhook_calls_fit_event (DB := Store) decimalNumber
           Sample.verifier bodyFailed goodSignature world0 evFailed).
  run.
Defined.

Lemma processWebhook_update_rejected_witness :
  fst (processWebhook (storage := Rejecting.updates) decimalNumber
         Sample.verifier (Buffer bodySucceeded) goodSignature world0)
  = inl (StorageFailure "update rejected")
  /\ db (snd (processWebhook (storage := Rejecting.updates) decimalNumber
                Sample.verifier (Buffer bodySucceeded) goodSignature world0))
     = store0.
Proof.
  destruct (processWebhook_update_rejected (storage := Rejecting.updates)
              decimalNumber Sample.verifier bodySucceeded goodSignature world0
              evSucceeded "u1" 3 (StorageFailure "update rejected"))
    as (Hres & Hdb & _); [run ..|].
  split; [exact Hres | exact Hdb].
Defined.

Lemma processWebhook_create_rejected_witness :
  fst (processWebhook (storage := Rejecting.creates) decimalNumber
         Sample.verifier (Buffer bodySucceeded) goodSignature world0)
  = inl (StorageFailure "insert rejected")
  /\ sp_status
       <$> scheduledPayments
             (db (snd (processWebhook (storage := Rejecting.creates)
                         decimalNumber Sample.verifier (Buffer bodySucceeded)
                         goodSignature world0)))
     = [completed].
Proof.
  destruct (processWebhook_create_rejected (storage := Rejecting.creates)
              decimalNumber Sample.verifier bodySucceeded goodSignature world0
              evSucceeded "u1" 3 7
              (DatabaseStorage.updateScheduledPayment 3 "u1"
                 (mkPatch (Some completed) (Some 0)) store0)
              (StorageFailure "insert rejected"))
    as (Hres & Hdb); [run ..|].
  split; [exact Hres|]. rewrite Hdb. run.
Defined.

Lemma processWebhook_unusable_payment_id_witness :
  journal (snd (processWebhook (DB := Store) decimalNumber MoreSamples.verifier
                  (Buffer MoreSamples.bodyOddPayment) goodSignature world0))
  = [CreateTransaction "u1"
       (mkInsertTransaction 7 "payment" 4167 "pi_6" "completed"
          "Credit plan payment")].
Proof.
  apply (processWebhook_unusable_payment_id (DB := Store) decimalNumber
           MoreSamples.verifier MoreSamples.bodyOddPayment goodSignature
           world0 MoreSamples.evOddPayment "u1" 7 "abc");
    [run | run | run | run | run | left; run].
Defined.

Lemma processWebhook_no_plan_no_transaction_witness :
  journal (snd (processWebhook (DB := Store) decimalNumber MoreSamples.verifier
                  (Buffer MoreSamples.bodyNoPlan) goodSignature world0))
  = [UpdateScheduledPayment 3 "u1" (mkPatch (Some completed) (Some 0))].
Proof.
  apply (processWebhook_no_plan_no_transaction (DB := Store) decimalNumber
           MoreSamples.verifier MoreSamples.bodyNoPlan goodSignature world0
           MoreSamples.evNoPlan "u1" 3); run.
Defined.

Lemma processWebhook_returns_iff_verified_witness :
  fst (processWebhook (DB := Store) decimalNumber Sample.verifier
         (Buffer bodySucceeded) "v1=forged" world0) = inr tt
  <-> exists ev,
        fst (constructStripeEvent (DB := Store) Sample.verifier bodySucceeded
               "v1=forged" world0) = inr ev.
Proof.
  apply (processWebhook_returns_iff_verified (DB := Store) decimalNumber
           Sample.verifier bodySucceeded "v1=forged" world0).
  - intros id userId p d. eexists. reflexivity.
  - intros userId t d. eexists. reflexivity.
Defined.

Lemma processWebhook_replay_creates_again_witness :
  exists t,
    List.filter isCreateTransaction
      (journal
         (snd (processWebhook (DB := Store) decimalNumber Sample.verifier
                 (Buffer bodySucceeded) goodSignature
                 (set_clock laterTime
                    (snd (processWebhook (DB := Store) decimalNumber
                            Sample.verifier (Buffer bodySucceeded)
                            goodSignature world0))))))
    = [CreateTransaction "u1" t; CreateTransaction "u1" t]
    /\ ins_externalId t = "pi_1".
Proof.
  destruct (processWebhook_replay_creates_again (DB := Store) decimalNumber
              Sample.verifier bodySucceeded goodSignature world0 laterTime
              evSucceeded "u1" 7)
    as (t & Hj & _ & _ & _ & Hid); [run ..|].
  exists t. split; [exact Hj | exact Hid].
Defined.

Lemma getStripeClient_cached_witness :
  getStripeClient
    (set_env (mkProcessEnv None None None)
       (snd (getStripeClient world0)))
  = (inr (mkClient "sk_test_1" "2025-07-30.basil"),
     set_env (mkProcessEnv None None None) (snd (getStripeClient world0))).
Proof.
  apply (getStripeClient_cached (DB := Store) world0
           (snd (getStripeClient world0))
           (mkClient "sk_test_1" "2025-07-30.basil")
           (mkProcessEnv None None None)).
  run.
Defined.

Lemma constructStripeEvent_sound_witness :
  exists secret client,
    STRIPE_WEBHOOK_SECRET (env world0) = Some secret /\ secret <> ""
    /\ clientOf world0 = Some client
    /\ Sample.verifier client (clock world0) bodySucceeded goodSignature secret
       = Some evSucceeded.
Proof.
  apply (constructStripeEvent_sound (DB := Store) Sample.verifier
           bodySucceeded goodSignature world0 evSucceeded).
  run.
Defined.

Lemma constructStripeEvent_errors_witness :
  snd (constructStripeEvent (DB := Store) Sample.verifier bodySucceeded
         goodSignature (set_env (mkProcessEnv None None None) world0))
  = set_env (mkProcessEnv None None None) world0.
Proof.
  apply (constructStripeEvent_errors (DB := Store) Sample.verifier
           bodySucceeded goodSignature
           (set_env (mkProcessEnv None None None) world0)
           MissingWebhookSecret); [run | discriminate].
Defined.

Lemma nextPayment_earliest_witness :
  CreditPlansView.nextPayment MoreSamples.dayNumber
    (Some MoreSamples.payments) 7 = Some MoreSamples.dueFebruary
  /\ exists ps,
       Some MoreSamples.payments = Some ps
       /\ MoreSamples.dueFebruary ∈ ps
       /\ sp_planId MoreSamples.dueFebruary = 7
       /\ sp_status MoreSamples.dueFebruary = scheduled
       /\ forall q,
            q ∈ ps -> sp_planId q = 7 -> sp_status q = scheduled ->
            CreditPlansView.dueTime MoreSamples.dayNumber MoreSamples.dueFebruary
            <= CreditPlansView.dueTime MoreSamples.dayNumber q.
Proof.
  split; [run|].
  apply (nextPayment_earliest MoreSamples.dayNumber (Some MoreSamples.payments)
           7 MoreSamples.dueFebruary).
  run.
Defined.

Lemma nextPayment_first_of_ties_witness :
  exists before after,
    filter (fun q => sp_status q = scheduled)
      (CreditPlansView.getPlanPayments (Some MoreSamples.payments) 7)
    = before ++ MoreSamples.dueFebruary :: after
    /\ forall q,
         q ∈ before ->
         CreditPlansView.dueTime MoreSamples.dayNumber MoreSamples.dueFebruary
         < CreditPlansView.dueTime MoreSamples.dayNumber q.
Proof.
  apply (nextPayment_first_of_ties MoreSamples.dayNumber
           (Some MoreSamples.payments) 7 MoreSamples.dueFebruary).
  run.
Defined.

Lemma createMutation_covers_total_witness :
  exists req,
    CreditPlans.createMutation isoDate MoreSamples.form = Some req
    /\ Double.toZ (CreditPlans.req_monthlyPayment req) = Some 4167.
Proof.
  eexists. split; [run|].
  destruct (createMutation_covers_total isoDate MoreSamples.form 50000 12
              (CreditPlans.mkCreatePlanRequest "Builder" (Double.ofZ 50000)
                 (Double.ofZ 4167) (Double.ofZ 12) (mkDate 2024 1 31) false
                 "active"))
    as (_ & _ & _ & _ & monthly & _ & Hz & -> & _);
    [run | run | vm_compute; by split | vm_compute; by split | run | run |].
  exact Hz.
Defined.

Lemma handleSubmit_request_after_success_witness :
  exists intent,
    PaymentSheet.ConfirmIntent "pi_1" "succeeded"
    = PaymentSheet.ConfirmIntent intent "succeeded"
    /\ PaymentSheet.ApiRequest "POST" "/api/stripe/confirm-payment"
         (PaymentSheet.mkConfirmPaymentBody "pi_1" (Some 7) (Some 3))
       = PaymentSheet.ApiRequest "POST" "/api/stripe/confirm-payment"
           (PaymentSheet.mkConfirmPaymentBody intent (Some 7) (Some 3)).
Proof.
  destruct (handleSubmit_request_after_success (Some 7) (Some 3) true
              (PaymentSheet.SubmitResolved None)
              (PaymentSheet.ConfirmIntent "pi_1" "succeeded") None
              (PaymentSheet.ApiRequest "POST" "/api/stripe/confirm-payment"
                 (PaymentSheet.mkConfirmPaymentBody "pi_1" (Some 7) (Some 3))))
    as (_ & _ & Hex).
  - cbn. rewrite !elem_of_cons. right. right. right. by left.
  - reflexivity.
  - exact Hex.
Defined.

Lemma handleSubmit_shows_success_witness :
  (None : option PaymentSheet.Thrown) = None
  /\ exists intent,
       PaymentSheet.ConfirmIntent "pi_1" "succeeded"
       = PaymentSheet.ConfirmIntent intent "succeeded".
Proof.
  apply (handleSubmit_shows_success (Some 7) (Some 3) true
           (PaymentSheet.SubmitResolved None)
           (PaymentSheet.ConfirmIntent "pi_1" "succeeded") None).
  cbn. rewrite !elem_of_cons. right. right. right. right. by left.
Defined.

End MoreRuns.
